(** * SQL2NL-demo: the inference bridge [flaskr/sql2text_bridge.py]

    A shallow embedding of the request orchestrator ([predict],
    [run_sql2text]), the checkpoint registry ([setup_checkpoints],
    [is_ready]), the dataset builder ([get_train_dataset],
    [build_dataset]), the model factory ([build_model]) and the greedy
    decode loop of [evaluate], followed by the properties the
    specification states about them.

    Python values are modelled as follows.
    - [str] is [string]; an argument that may be [None] is an [option].
    - An exception is an [exn] carrying its class name, [str(err)] and
      whether its class derives from [Exception]; a call that may raise
      returns an [outcome].
    - The module-level globals ([checkpoint_dict], [train_seq_dataset],
      [train_tree_dataset]) are a record threaded through a state and
      exception monad; [checkpoint_dict] is a [gmap] keyed by tag.
    - The id tensors of the decode loop live in a store indexed by
      object reference, because the loop appends a tensor to a list and
      then writes into that same tensor.
    - torch, the dataset classes, the metric and the request
      materializer are collaborators outside this file: they are the
      fields of the class [World].
    - [current_app.logger] needs an active application context and
      raises [RuntimeError] without one.  The two start-up functions
      run where, by the comment in [setup_models], there may be none:
      there every logger call is a collaborator call that may raise.
      [predict] and what it calls run inside a request, where the
      context is active and a logger call returns and changes no value
      the functions return or store; those calls, and [model.eval()],
      are left out. *)

From Stdlib Require Import ZArith Lia.
From stdpp Require Import base option list strings gmap.

Local Open Scope Z_scope.

(** ** Python preliminaries *)

Module Py.

(** An exception object: the name of its class and the text [str(err)]
    yields.  [Exn] is an instance of a class that derives from
    [Exception]; [BaseExn] is an instance of a class that derives from
    [BaseException] only ([KeyboardInterrupt], [SystemExit],
    [GeneratorExit]). *)
Inductive exn :=
| Exn (cls msg : string)
| BaseExn (cls msg : string).

Definition exn_class (e : exn) : string :=
  match e with
  | Exn cls _ | BaseExn cls _ => cls
  end.

Definition exn_str (e : exn) : string :=
  match e with
  | Exn _ msg | BaseExn _ msg => msg
  end.

(** [isinstance(err, Exception)] *)
Definition is_Exception (e : exn) : bool :=
  match e with
  | Exn _ _ => true
  | BaseExn _ _ => false
  end.

(** The outcome of a call: it returns a value or raises. *)
Inductive outcome (A : Type) : Type :=
| Returns (a : A)
| Raises (e : exn).
Arguments Returns {A} a.
Arguments Raises {A} e.

Definition obind {A B} (c : outcome A) (k : A -> outcome B) : outcome B :=
  match c with
  | Returns a => k a
  | Raises e => Raises e
  end.

(** [sub in s] on strings. *)
Fixpoint startswith (s p : string) {struct p} : bool :=
  match p, s with
  | EmptyString, _ => true
  | String c p', String d s' => if Ascii.eqb c d then startswith s' p' else false
  | String _ _, EmptyString => false
  end.

Fixpoint str_in (sub s : string) : bool :=
  startswith s sub ||
  match s with
  | EmptyString => false
  | String _ s' => str_in sub s'
  end.

Definition contains (s sub : string) : Prop :=
  exists pre post, s = pre +:+ sub +:+ post.

(** [repr] of a [str]: single quotes unless the text holds a single
    quote and no double quote; the chosen quote and the backslash are
    escaped.  (Escapes of non-printable characters are not modelled.) *)
Definition dquote : Ascii.ascii := Ascii.ascii_of_nat 34.
Definition squote : Ascii.ascii := Ascii.ascii_of_nat 39.
Definition backslash : Ascii.ascii := Ascii.ascii_of_nat 92.

Fixpoint has_char (c : Ascii.ascii) (s : string) : bool :=
  match s with
  | EmptyString => false
  | String d s' => Ascii.eqb c d || has_char c s'
  end.

Fixpoint escape (q : Ascii.ascii) (s : string) : string :=
  match s with
  | EmptyString => EmptyString
  | String c s' =>
      if Ascii.eqb c q || Ascii.eqb c backslash
      then String backslash (String c (escape q s'))
      else String c (escape q s')
  end.

Definition repr_str (s : string) : string :=
  if has_char squote s && negb (has_char dquote s)
  then String dquote (escape dquote s) +:+ String dquote EmptyString
  else String squote (escape squote s) +:+ String squote EmptyString.

(** [", ".join(xs)] *)
Fixpoint join (sep : string) (xs : list string) : string :=
  match xs with
  | [] => EmptyString
  | [x] => x
  | x :: rest => x +:+ sep +:+ join sep rest
  end.

(** [repr] of a list of [str], which is also what an f-string field
    [{xs}] renders. *)
Definition repr_list (xs : list string) : string :=
  "[" +:+ join ", " (map repr_str xs) +:+ "]".

(** An f-string field [{x}] over a variable that may hold [None]. *)
Definition format_opt {A} (fmt : A -> string) (x : option A) : string :=
  match x with
  | None => "None"
  | Some a => fmt a
  end.

End Py.

Import Py.

Global Instance outcome_ret : MRet outcome := fun A a => Returns a.
Global Instance outcome_bind : MBind outcome := fun A B k c => obind c k.

(** ** The bridge *)

Module Bridge.

Definition MAX_DECODE : nat := 500.
Definition TRAIN_TABLE_FILE_PATH : string := "Dataset/spider/tables.json".
Definition SUPPORTED_MODELS : list string :=
  ["BiLSTM"; "Relative-Transformer"; "Transformer"; "TreeLSTM"].
Definition TRAIN_SEQ_DATASET_KEY : string := "train_seq_dataset".
Definition TRAIN_TREE_DATASET_KEY : string := "train_tree_dataset".
Definition TRAIN_DATA_FILES : list string :=
  ["./Dataset/spider_composed_tree2seq/train.json"].

(** [x in xs] for a [str] and a list of [str]. *)
Definition py_in (x : string) (xs : list string) : bool :=
  bool_decide (x ∈ xs).

Section Bridge.

(** Values this file only passes along: Python floats, float and mask
    tensors, the decoder's recurrent state, opaque Python objects
    (batches, alignment maps, state dicts) and a network with its
    weights loaded. *)
Context {Float Tensor Hidden PyObj Net : Type}.

Inductive pynum :=
| PyInt (z : Z)
| PyFloat (f : Float).

(** [flaskr.evaluation_result.EvaluationResult]: the attributes the
    bridge reads and writes. *)
Record EvaluationResult := {
  modelName : string;
  original : string;
  hasScore : bool;
  result : string;
  score : pynum;
  success : bool;
  failedReason : string
}.

Definition set_modelName (v : string) (r : EvaluationResult) :=
  {| modelName := v; original := original r; hasScore := hasScore r;
     result := result r; score := score r; success := success r;
     failedReason := failedReason r |}.
Definition set_original (v : string) (r : EvaluationResult) :=
  {| modelName := modelName r; original := v; hasScore := hasScore r;
     result := result r; score := score r; success := success r;
     failedReason := failedReason r |}.
Definition set_hasScore (v : bool) (r : EvaluationResult) :=
  {| modelName := modelName r; original := original r; hasScore := v;
     result := result r; score := score r; success := success r;
     failedReason := failedReason r |}.
Definition set_result (v : string) (r : EvaluationResult) :=
  {| modelName := modelName r; original := original r; hasScore := hasScore r;
     result := v; score := score r; success := success r;
     failedReason := failedReason r |}.
Definition set_score (v : pynum) (r : EvaluationResult) :=
  {| modelName := modelName r; original := original r; hasScore := hasScore r;
     result := result r; score := v; success := success r;
     failedReason := failedReason r |}.
Definition set_success (v : bool) (r : EvaluationResult) :=
  {| modelName := modelName r; original := original r; hasScore := hasScore r;
     result := result r; score := score r; success := v;
     failedReason := failedReason r |}.
Definition set_failedReason (v : string) (r : EvaluationResult) :=
  {| modelName := modelName r; original := original r; hasScore := hasScore r;
     result := result r; score := score r; success := success r;
     failedReason := v |}.

(** A Vocabulary object.  It is never written after construction, so
    an object is its address together with its attributes; Python's
    [is] compares addresses. *)
Record Vocab := {
  vocab_addr : nat;
  vocab_size : Z;
  vocab_pad_idx : Z;
  vocab_unk_idx : Z
}.

Definition py_is (a b : Vocab) : Prop := vocab_addr a = vocab_addr b.

(** A [SeqDataset] or [TreeDataset]: the attributes the bridge reads;
    [ds_examples] is what the [DataLoader] iterates over. *)
Record Dataset := {
  ds_vocab : Vocab;
  ds_origin_questions : PyObj;
  ds_val_map_list : PyObj;
  ds_idx2tok_map_list : PyObj;
  ds_examples : PyObj
}.

(** The hyperparameter namespace saved in a checkpoint. *)
Record Args := {
  args_model : string;
  args_data : string;
  args_eval_batch_size : Z;
  args_down_embed_dim : Z;
  args_hid_size : Z;
  args_dropout : Float;
  args_max_oov_num : Z;
  args_copy : bool;
  args_down_d_model : Z;
  args_down_d_ff : Z;
  args_down_head_num : Z;
  args_down_layer_num : Z;
  args_down_max_dist : Z;
  args_rel_share : bool;
  args_k_v_share : bool;
  args_absolute_pos : bool
}.

Definition set_data (v : string) (a : Args) : Args :=
  {| args_model := args_model a; args_data := v;
     args_eval_batch_size := args_eval_batch_size a;
     args_down_embed_dim := args_down_embed_dim a;
     args_hid_size := args_hid_size a; args_dropout := args_dropout a;
     args_max_oov_num := args_max_oov_num a; args_copy := args_copy a;
     args_down_d_model := args_down_d_model a;
     args_down_d_ff := args_down_d_ff a;
     args_down_head_num := args_down_head_num a;
     args_down_layer_num := args_down_layer_num a;
     args_down_max_dist := args_down_max_dist a;
     args_rel_share := args_rel_share a; args_k_v_share := args_k_v_share a;
     args_absolute_pos := args_absolute_pos a |}.

Definition set_eval_batch_size (v : Z) (a : Args) : Args :=
  {| args_model := args_model a; args_data := args_data a;
     args_eval_batch_size := v;
     args_down_embed_dim := args_down_embed_dim a;
     args_hid_size := args_hid_size a; args_dropout := args_dropout a;
     args_max_oov_num := args_max_oov_num a; args_copy := args_copy a;
     args_down_d_model := args_down_d_model a;
     args_down_d_ff := args_down_d_ff a;
     args_down_head_num := args_down_head_num a;
     args_down_layer_num := args_down_layer_num a;
     args_down_max_dist := args_down_max_dist a;
     args_rel_share := args_rel_share a; args_k_v_share := args_k_v_share a;
     args_absolute_pos := args_absolute_pos a |}.

(** What [torch.load] yields: the dict with keys ['args'] and ['model']. *)
Record Checkpoint := {
  ck_args : Args;
  ck_model : PyObj
}.

(** A freshly constructed network: its class and the constructor's
    arguments, in the order [build_model] passes them. *)
Inductive Model :=
| BiLSTM (embed_dim vocab_size hid_size pad_idx : Z) (dropout : Float)
         (max_oov_num : Z) (copy : bool)
| RelativeTransformer (embed_dim vocab_size d_model d_ff head_num layer_num
                       hid_size : Z) (dropout : Float)
                      (pad_idx max_dist max_oov_num : Z)
                      (copy rel_share k_v_share : bool)
| AbsoluteTransformer (embed_dim vocab_size d_model d_ff head_num layer_num
                       hid_size : Z) (dropout : Float) (pad_idx : Z)
                      (max_oov_num : Z) (copy : bool) (pos : bool)
| TreeLSTM (embed_dim vocab_size type_num hid_size : Z) (dropout : Float)
           (pad_idx max_oov_num : Z) (copy : bool).

(** The first component of what [get_seq_batch_data] returns. *)
Record SeqBatch := {
  sb_nodes : Tensor;
  sb_questions : list (list Z);
  sb_rela_dist : Tensor;
  sb_copy_mask : Tensor;
  sb_src2trg_map : Tensor
}.

(** The first component of what [get_tree_batch_data] returns. *)
Record TreeBatch := {
  tb_nodes : Tensor;
  tb_types : Tensor;
  tb_node_order : Tensor;
  tb_adjacency_list : Tensor;
  tb_edge_order : Tensor;
  tb_questions : list (list Z);
  tb_copy_mask : Tensor;
  tb_src2trg_map : Tensor
}.

(** The collaborators.  Each may raise unless its type says otherwise. *)
Class World := {
  (** [EvaluationResult()] *)
  EvaluationResult_new : EvaluationResult;
  (** [current_app.logger.info(msg)] in a start-up function *)
  logger_info : string -> outcome unit;
  (** [file_utils.build_input_sql_json(db_id, gold, sql, identifier)] *)
  build_input_sql_json : string -> option string -> string -> string -> outcome string;
  (** [torch.load(path)] *)
  torch_load : string -> outcome Checkpoint;
  (** [SeqDataset(files, table_path, vocab=...)], likewise [TreeDataset] *)
  SeqDataset : list string -> string -> option Vocab -> outcome Dataset;
  TreeDataset : list string -> string -> option Vocab -> outcome Dataset;
  (** [Utils.const.TYPE_NUM] *)
  TYPE_NUM : Z;
  (** [model.to(device)] *)
  to_device : Model -> outcome unit;
  (** [model.load_state_dict(state)] *)
  load_state_dict : Model -> PyObj -> outcome Net;
  (** the batches [DataLoader(dataset, batch_size)] yields, in order *)
  DataLoader : Dataset -> Z -> list PyObj;
  (** [get_seq_batch_data(batch_data, pad_idx, device, size, unk_idx, max_dist)] *)
  get_seq_batch_data : PyObj -> Z -> Z -> Z -> Z -> outcome SeqBatch;
  (** [get_tree_batch_data(batch_data, device)] *)
  get_tree_batch_data : PyObj -> outcome TreeBatch;
  (** [model.encode] applied to its positional arguments *)
  encode : Net -> list Tensor -> outcome (Tensor * Hidden * Tensor);
  (** [model.decode(inputs, nodes, hidden, mask, copy_mask, src2trg_map)] *)
  decode : Net -> list Z -> Tensor -> Hidden -> Tensor -> Tensor -> Tensor ->
           outcome (Tensor * Hidden);
  (** [cur_out.argmax(dim=-1)]: a new id tensor, one id per example *)
  argmax : Tensor -> list Z;
  (** [get_metric(predictions, origin_questions, vocab, True, val_map_list,
      idx2tok_map_list)]: the scores and the detokenized predictions *)
  get_metric : list (list Z) -> PyObj -> Vocab -> PyObj -> PyObj ->
               outcome (list pynum * list string)
}.

Context {W : World}.

(** *** Module-level state *)

Record Globals := {
  checkpoint_dict : gmap string Checkpoint;
  train_seq_dataset : option Dataset;
  train_tree_dataset : option Dataset
}.

(** A computation over the globals that may raise; the globals written
    before an exception stay written. *)
Definition M (A : Type) : Type := Globals -> outcome A * Globals.

Definition ret {A} (a : A) : M A := fun g => (Returns a, g).

Definition bind {A B} (c : M A) (k : A -> M B) : M B :=
  fun g =>
    match c g with
    | (Returns a, g') => k a g'
    | (Raises e, g') => (Raises e, g')
    end.

(** A collaborator call, which does not touch the globals. *)
Definition call {A} (c : outcome A) : M A := fun g => (c, g).

Definition read : M Globals := fun g => (Returns g, g).
Definition write (g' : Globals) : M unit := fun _ => (Returns tt, g').

(** [try: body except Exception as err: handler(err)]: an exception
    that is not an instance of [Exception] passes through. *)
Definition try_except {A} (body : M A) (handler : exn -> M A) : M A :=
  fun g =>
    match body g with
    | (Returns a, g') => (Returns a, g')
    | (Raises err, g') =>
        if is_Exception err then handler err g' else (Raises err, g')
    end.

Notation "'do' x <- c ; k" := (bind c (fun x => k))
  (at level 10, x name, c at level 100, k at level 200).
Notation "'do' ' pat <- c ; k" := (bind c (fun x => match x with pat => k end))
  (at level 10, pat pattern, c at level 100, k at level 200).

Fixpoint for_each {A} (xs : list A) (body : A -> M unit) : M unit :=
  match xs with
  | [] => ret tt
  | x :: rest => do _ <- body x; for_each rest body
  end.

(** *** Readiness and start-up *)

Definition is_ready (g : Globals) : bool :=
  negb (size (checkpoint_dict g) =? 0)%nat
  && bool_decide (is_Some (train_seq_dataset g))
  && bool_decide (is_Some (train_tree_dataset g)).

Definition get_checkpoint_path (model : string) : string :=
  if String.eqb model "BiLSTM" then
    "Checkpoints/BiLSTM/spider/bilstm_big.pt"
  else if String.eqb model "Relative-Transformer" then
    "Checkpoints/RelativeTransformer/spider/rel_transformer_big.pt"
  else if String.eqb model "Transformer" then
    "Checkpoints/Transformer/spider/transformer_big.pt"
  else if String.eqb model "TreeLSTM" then
    "Checkpoints/TreeLSTM/spider/tree2seq_big.pt"
  else EmptyString.

Definition set_checkpoint (model : string) (ck : Checkpoint) (g : Globals) :=
  {| checkpoint_dict := <[model := ck]> (checkpoint_dict g);
     train_seq_dataset := train_seq_dataset g;
     train_tree_dataset := train_tree_dataset g |}.

(** One iteration of the loop of [setup_checkpoints]: the two logger
    calls around [checkpoint_dict[model] = torch.load(path)]. *)
Definition load_checkpoint (model : string) : M unit :=
  let path := get_checkpoint_path model in
  do _ <- call (logger_info ("loading checkpoint " +:+ path +:+ " for model '"
                             +:+ model +:+ "'..."));
  do ck <- call (torch_load path);
  do g <- read;
  do _ <- write (set_checkpoint model ck g);
  call (logger_info ("checkpoint " +:+ path +:+ " loaded!")).

Definition setup_checkpoints : M unit :=
  do _ <- for_each SUPPORTED_MODELS load_checkpoint;
  call (logger_info "!!setup_checkpoints finished!!").

Definition setup_models : M unit :=
  do g <- read;
  do _ <- match train_seq_dataset g with
          | None =>
              do _ <- call (logger_info ("generating " +:+ TRAIN_SEQ_DATASET_KEY
                                         +:+ "..."));
              do d <- call (SeqDataset TRAIN_DATA_FILES TRAIN_TABLE_FILE_PATH None);
              do _ <- write {| checkpoint_dict := checkpoint_dict g;
                               train_seq_dataset := Some d;
                               train_tree_dataset := train_tree_dataset g |};
              call (logger_info (TRAIN_SEQ_DATASET_KEY +:+ " generated!"))
          | Some _ => ret tt
          end;
  do g <- read;
  do _ <- match train_tree_dataset g with
          | None =>
              do _ <- call (logger_info ("generating " +:+ TRAIN_TREE_DATASET_KEY
                                         +:+ "..."));
              do d <- call (TreeDataset TRAIN_DATA_FILES TRAIN_TABLE_FILE_PATH None);
              do _ <- write {| checkpoint_dict := checkpoint_dict g;
                               train_seq_dataset := train_seq_dataset g;
                               train_tree_dataset := Some d |};
              call (logger_info (TRAIN_TREE_DATASET_KEY +:+ " generated!"))
          | Some _ => ret tt
          end;
  call (logger_info "!!setup_models finished!!").

(** *** Datasets *)

Definition SEQ_MODELS : list string :=
  ["Relative-Transformer"; "Transformer"; "BiLSTM"].

Definition get_train_dataset (g : Globals) (model : string) : option Dataset :=
  if py_in model SEQ_MODELS then train_seq_dataset g
  else if String.eqb model "TreeLSTM" then train_tree_dataset g
  else None.

(** [train_set.vocab], where [train_set] may be [None]. *)
Definition attr_vocab (train_set : option Dataset) : outcome Vocab :=
  match train_set with
  | Some d => Returns (ds_vocab d)
  | None => Raises (Exn "AttributeError"
                        "'NoneType' object has no attribute 'vocab'")
  end.

Definition build_dataset (g : Globals) (model user_request_data_file : string)
  : outcome (option Dataset) :=
  let test_data_files := [user_request_data_file] in
  if py_in model SEQ_MODELS then
    let train_set := get_train_dataset g model in
    v ← attr_vocab train_set;
    test_set ← SeqDataset test_data_files TRAIN_TABLE_FILE_PATH (Some v);
    Returns (Some test_set)
  else if String.eqb model "TreeLSTM" then
    let train_set := get_train_dataset g model in
    v ← attr_vocab train_set;
    test_set ← TreeDataset test_data_files TRAIN_TABLE_FILE_PATH (Some v);
    Returns (Some test_set)
  else Returns None.

(** *** Model factory *)

Definition build_model (args : option Args) (vocab : option Vocab) : option Model :=
  match args, vocab with
  | Some args, Some vocab =>
      if String.eqb (args_model args) "BiLSTM" then
        Some (BiLSTM (args_down_embed_dim args) (vocab_size vocab)
                     (args_hid_size args) (vocab_pad_idx vocab)
                     (args_dropout args) (args_max_oov_num args)
                     (args_copy args))
      else if String.eqb (args_model args) "Relative-Transformer" then
        Some (RelativeTransformer (args_down_embed_dim args) (vocab_size vocab)
                     (args_down_d_model args) (args_down_d_ff args)
                     (args_down_head_num args) (args_down_layer_num args)
                     (args_hid_size args) (args_dropout args)
                     (vocab_pad_idx vocab) (args_down_max_dist args)
                     (args_max_oov_num args) (args_copy args)
                     (args_rel_share args) (args_k_v_share args))
      else if String.eqb (args_model args) "Transformer" then
        Some (AbsoluteTransformer (args_down_embed_dim args) (vocab_size vocab)
                     (args_down_d_model args) (args_down_d_ff args)
                     (args_down_head_num args) (args_down_layer_num args)
                     (args_hid_size args) (args_dropout args)
                     (vocab_pad_idx vocab) (args_max_oov_num args)
                     (args_copy args) (args_absolute_pos args))
      else if String.eqb (args_model args) "TreeLSTM" then
        Some (TreeLSTM (args_down_embed_dim args) (vocab_size vocab) TYPE_NUM
                     (args_hid_size args) (args_dropout args)
                     (vocab_pad_idx vocab) (args_max_oov_num args)
                     (args_copy args))
      else None
  | _, _ => None
  end.

(** *** Greedy decoding *)

(** What the encoder hands to the decode loop for one batch. *)
Record Encoded := {
  enc_nodes : Tensor;
  enc_hidden : Hidden;
  enc_mask : Tensor;
  enc_questions : list (list Z);
  enc_copy_mask : Tensor;
  enc_src2trg_map : Tensor
}.

(** The branch of [evaluate] that prepares and encodes one batch;
    [None] stands for the early [return "", 0] of its last branch. *)
Definition encode_batch (model : Net) (vocab : Vocab) (args : Args)
    (model_name : string) (batch_data : PyObj) : outcome (option Encoded) :=
  if py_in model_name SEQ_MODELS then
    batch ← get_seq_batch_data batch_data (vocab_pad_idx vocab)
              (vocab_size vocab) (vocab_unk_idx vocab) (args_down_max_dist args);
    '(nodes, hidden, mask) ←
      (if String.eqb model_name "Relative-Transformer"
       then encode model [sb_nodes batch; sb_rela_dist batch]
       else encode model [sb_nodes batch]);
    Returns (Some {| enc_nodes := nodes; enc_hidden := hidden; enc_mask := mask;
                     enc_questions := sb_questions batch;
                     enc_copy_mask := sb_copy_mask batch;
                     enc_src2trg_map := sb_src2trg_map batch |})
  else if String.eqb model_name "TreeLSTM" then
    batch ← get_tree_batch_data batch_data;
    '(nodes, hidden, mask) ←
      encode model [tb_nodes batch; tb_types batch; tb_node_order batch;
                    tb_adjacency_list batch; tb_edge_order batch];
    Returns (Some {| enc_nodes := nodes; enc_hidden := hidden; enc_mask := mask;
                     enc_questions := tb_questions batch;
                     enc_copy_mask := tb_copy_mask batch;
                     enc_src2trg_map := tb_src2trg_map batch |})
  else Returns None.

(** The id tensors of the loop are objects in a store; a tensor of
    shape (B, 1) is the list of its B ids.  A variable of the loop
    ([inputs], [next_input], an element of [preds]) holds a reference
    into the store. *)
Record DecodeState := {
  st_store : list (list Z);
  st_inputs : nat;
  st_hidden : Hidden;
  st_preds : list nat
}.

Definition deref (store : list (list Z)) (ref : nat) : list Z :=
  default [] (store !! ref).

(** [t[t >= size] = unk], on the ids of one tensor. *)
Definition masked_assign (size unk : Z) (t : list Z) : list Z :=
  map (fun x => if x >=? size then unk else x) t.

(** The body of [for _ in range(MAX_DECODE)]. *)
Definition decode_step (model : Net) (enc : Encoded) (vocab : Vocab)
    (st : DecodeState) : outcome DecodeState :=
  '(cur_out, hidden) ←
    decode model (deref (st_store st) (st_inputs st)) (enc_nodes enc)
           (st_hidden st) (enc_mask enc) (enc_copy_mask enc)
           (enc_src2trg_map enc);
  (* next_input = cur_out.argmax(dim=-1): a new tensor *)
  let next_input := length (st_store st) in
  let store := st_store st ++ [argmax cur_out] in
  (* preds.append(next_input): the list holds the reference *)
  let preds := st_preds st ++ [next_input] in
  (* next_input[next_input >= vocab.size] = vocab.unk_idx: written in place *)
  let store := alter (masked_assign (vocab_size vocab) (vocab_unk_idx vocab))
                     next_input store in
  (* inputs = next_input *)
  Returns {| st_store := store; st_inputs := next_input;
             st_hidden := hidden; st_preds := preds |}.

Fixpoint for_range {S} (n : nat) (body : S -> outcome S) (s : S) : outcome S :=
  match n with
  | O => Returns s
  | Datatypes.S n' => s' ← body s; for_range n' body s'
  end.

(** [questions[:, 0].view(-1, 1)] *)
Fixpoint column0 (questions : list (list Z)) : outcome (list Z) :=
  match questions with
  | [] => Returns []
  | [] :: _ => Raises (Exn "IndexError"
                  "index 0 is out of bounds for dimension 1 with size 0")
  | (q :: _) :: rest => qs ← column0 rest; Returns (q :: qs)
  end.

(** [torch.cat(ts, dim=1).tolist()] for tensors of shape (B, 1): row i
    collects the i-th id of every tensor.  The texts of the two errors
    are shortened. *)
Definition torch_cat_dim1 (ts : list (list Z)) : outcome (list (list Z)) :=
  match ts with
  | [] => Raises (Exn "RuntimeError"
                      "torch.cat(): expected a non-empty list of Tensors")
  | t :: _ =>
      if forallb (fun t' => (length t' =? length t)%nat) ts
      then Returns (map (fun i => map (fun t' => nth i t' 0) ts)
                        (seq 0 (length t)))
      else Raises (Exn "RuntimeError"
                       "Sizes of tensors must match except in dimension 1")
  end.

Definition decode_init (enc : Encoded) (inputs : list Z) : DecodeState :=
  {| st_store := [inputs]; st_inputs := 0%nat;
     st_hidden := enc_hidden enc; st_preds := [] |}.

(** The decode loop of one batch, from [inputs = questions[:, 0]...] to
    [preds.tolist()]. *)
Definition decode_batch (model : Net) (vocab : Vocab) (enc : Encoded)
  : outcome (list (list Z)) :=
  inputs ← column0 (enc_questions enc);
  st ← for_range MAX_DECODE (decode_step model enc vocab) (decode_init enc inputs);
  torch_cat_dim1 (map (deref (st_store st)) (st_preds st)).

(** [for batch_data in dataloader: ...], accumulating [all_predictions]. *)
Fixpoint eval_batches (model : Net) (vocab : Vocab) (args : Args)
    (model_name : string) (batches : list PyObj)
    (all_predictions : list (list Z)) : outcome (option (list (list Z))) :=
  match batches with
  | [] => Returns (Some all_predictions)
  | batch_data :: rest =>
      enc ← encode_batch model vocab args model_name batch_data;
      match enc with
      | None => Returns None
      | Some enc =>
          preds ← decode_batch model vocab enc;
          eval_batches model vocab args model_name rest (all_predictions ++ preds)
      end
  end.

Definition evaluate (model : Net) (dataset : Dataset) (vocab : Vocab)
    (args : Args) (model_name : string) : outcome (string * pynum) :=
  if negb (py_in model_name SUPPORTED_MODELS) then Returns (EmptyString, PyInt 0)
  else
    let dataloader := DataLoader dataset (args_eval_batch_size args) in
    all_predictions ← eval_batches model vocab args model_name dataloader [];
    match all_predictions with
    | None => Returns (EmptyString, PyInt 0)
    | Some all_predictions =>
        '(scores, result_predictions) ←
          get_metric all_predictions (ds_origin_questions dataset) vocab
                     (ds_val_map_list dataset) (ds_idx2tok_map_list dataset);
        let prediction := hd EmptyString result_predictions in
        let score := hd (PyInt 0) scores in
        Returns (prediction, score)
    end.

(** *** The orchestrator *)

(** [str(model)] for a network: torch prints the module tree, of which
    only the class is kept.  [run_sql2text] formats the variable only
    where it holds [None]. *)
Definition model_str (m : Model) : string :=
  match m with
  | BiLSTM _ _ _ _ _ _ _ => "BiLSTM(...)"
  | RelativeTransformer _ _ _ _ _ _ _ _ _ _ _ _ _ _ => "RelativeTransformer(...)"
  | AbsoluteTransformer _ _ _ _ _ _ _ _ _ _ _ _ => "AbsoluteTransformer(...)"
  | TreeLSTM _ _ _ _ _ _ _ _ => "TreeLSTM(...)"
  end.

(** The body of the [try] of [run_sql2text].  [res] is written only
    right before a [return] or after the last call that can raise, so
    the body returns the written object. *)
Definition run_sql2text_try (model user_input_json_path : string)
    (res : EvaluationResult) : M EvaluationResult :=
  do g <- read;
  match checkpoint_dict g !! model with
  | None =>
      let reason := "checkpoint for model " +:+ model +:+ " is not loaded yet" in
      ret (set_failedReason reason res)
  | Some checkpoint =>
      (* checkpoint_args is the object held by the registry *)
      let checkpoint_args :=
        set_eval_batch_size 1 (set_data "spider" (ck_args checkpoint)) in
      do _ <- write (set_checkpoint model
                       {| ck_args := checkpoint_args;
                          ck_model := ck_model checkpoint |} g);
      do test_dataset <- call (build_dataset g model user_input_json_path);
      match test_dataset with
      | None =>
          let reason := "build dataset for " +:+ model +:+ " failed" in
          ret (set_failedReason reason res)
      | Some test_dataset =>
          (* model = build_model(...): the name is rebound *)
          let model := build_model (Some checkpoint_args)
                                   (Some (ds_vocab test_dataset)) in
          match model with
          | None =>
              let reason :=
                "build model for " +:+ format_opt model_str model +:+ " failed" in
              ret (set_failedReason reason res)
          | Some net =>
              do _ <- call (to_device net);
              do net <- call (load_state_dict net (ck_model checkpoint));
              do '(prediction, score) <-
                call (evaluate net test_dataset (ds_vocab test_dataset)
                               checkpoint_args (args_model checkpoint_args));
              ret (set_success true (set_score score (set_result prediction res)))
          end
      end
  end.

Definition run_sql2text (model user_input_json_path : string)
    (res : EvaluationResult) : M EvaluationResult :=
  try_except (run_sql2text_try model user_input_json_path res)
             (fun err => ret (set_failedReason (exn_str err) res)).

(** [x != None] and [x != s] for an argument that may be [None]. *)
Definition ne_None {A} (x : option A) : bool :=
  match x with
  | None => false
  | Some _ => true
  end.

Definition ne_str (x : option string) (s : string) : bool :=
  match x with
  | None => true
  | Some t => negb (String.eqb t s)
  end.

(** The first four statements of [predict]: the result object and the
    three attributes written before any branch. *)
Definition new_result (model : string) (gold_nl_array : option string)
    (input_sql : string) : EvaluationResult :=
  let res := EvaluationResult_new in
  let res := set_modelName model res in
  let res := set_original input_sql res in
  set_hasScore (ne_None gold_nl_array && ne_str gold_nl_array EmptyString) res.

Definition predict (model db_id : string) (gold_nl_array : option string)
    (input_sql input_identifier : string) : M EvaluationResult :=
  let res := new_result model gold_nl_array input_sql in
  if negb (py_in model SUPPORTED_MODELS) then
    let error_msg := "model '" +:+ model +:+ "' is not in supported models "
                     +:+ repr_list SUPPORTED_MODELS +:+ "!" in
    ret (set_failedReason error_msg res)
  else
    let input_identifier := input_identifier +:+ "@" +:+ model in
    do jsonTargetPath <-
      call (build_input_sql_json db_id gold_nl_array input_sql input_identifier);
    if String.eqb jsonTargetPath EmptyString then
      let error_msg := "build json file for model '" +:+ model +:+ "' input_sql '"
                       +:+ input_sql +:+ "' failed!" in
      ret (set_failedReason error_msg res)
    else run_sql2text model jsonTargetPath res.

End Bridge.
End Bridge.

(** ** A small concrete world

    Collaborators with one-line behaviour, on which the functions above
    can be run: tensors of scores are lists of ids whose [argmax] is
    the list itself, and the decoder adds 2 to every input id. *)

Module Small.
Import Bridge.

Definition Float : Type := unit.
Definition Tensor : Type := list Z.
Definition Hidden : Type := nat.
Definition PyObj : Type := unit.
Definition Net : Type := unit.

Definition result0 : @EvaluationResult Float :=
  {| modelName := EmptyString; original := EmptyString; hasScore := false;
     result := EmptyString; score := PyInt 0; success := false;
     failedReason := EmptyString |}.

Definition vocab0 : Vocab :=
  {| vocab_addr := 7; vocab_size := 3; vocab_pad_idx := 0; vocab_unk_idx := 1 |}.

(** A vocabulary with the same entries as [vocab0] at another address. *)
Definition vocab1 : Vocab :=
  {| vocab_addr := 8; vocab_size := 3; vocab_pad_idx := 0; vocab_unk_idx := 1 |}.

Definition dataset_of (vocab : Vocab) : @Dataset PyObj :=
  {| ds_vocab := vocab; ds_origin_questions := tt; ds_val_map_list := tt;
     ds_idx2tok_map_list := tt; ds_examples := tt |}.

(** The constructor keeps the vocabulary it is given and builds
    [vocab0] when it is given none. *)
Definition new_dataset (files : list string) (table : string)
    (vocab : option Vocab) : outcome (@Dataset PyObj) :=
  Returns (dataset_of (default vocab0 vocab)).

Definition args_of (tag : string) : @Args Float :=
  {| args_model := tag; args_data := "spider"; args_eval_batch_size := 1;
     args_down_embed_dim := 4; args_hid_size := 4; args_dropout := tt;
     args_max_oov_num := 2; args_copy := true; args_down_d_model := 4;
     args_down_d_ff := 8; args_down_head_num := 2; args_down_layer_num := 1;
     args_down_max_dist := 2; args_rel_share := false;
     args_k_v_share := false; args_absolute_pos := true |}.

Definition checkpoint_of (tag : string) : @Checkpoint Float PyObj :=
  {| ck_args := args_of tag; ck_model := tt |}.

(** Only the BiLSTM and the Relative-Transformer checkpoints are on disk. *)
Definition load (path : string) : outcome (@Checkpoint Float PyObj) :=
  if String.eqb path (get_checkpoint_path "BiLSTM")
  then Returns (checkpoint_of "BiLSTM")
  else if String.eqb path (get_checkpoint_path "Relative-Transformer")
  then Returns (checkpoint_of "Relative-Transformer")
  else Raises (Exn "FileNotFoundError" "No such file or directory").

(** All four checkpoints are on disk, each saved with its own tag. *)
Definition load_all (path : string) : outcome (@Checkpoint Float PyObj) :=
  match filter (fun tag => bool_decide (get_checkpoint_path tag = path))
               SUPPORTED_MODELS with
  | tag :: _ => Returns (checkpoint_of tag)
  | [] => Raises (Exn "FileNotFoundError" "No such file or directory")
  end.

Definition materialize_ok (db_id : string) (gold : option string)
    (sql identifier : string) : outcome string :=
  Returns ("input/" +:+ identifier +:+ ".json").

Definition materialize_raises (db_id : string) (gold : option string)
    (sql identifier : string) : outcome string :=
  Raises (Exn "OSError" "No space left on device").

Definition seq_batch : @SeqBatch Tensor :=
  {| sb_nodes := []; sb_questions := [[0; 2; 2]]; sb_rela_dist := [];
     sb_copy_mask := []; sb_src2trg_map := [] |}.

Definition tree_batch : @TreeBatch Tensor :=
  {| tb_nodes := []; tb_types := []; tb_node_order := [];
     tb_adjacency_list := []; tb_edge_order := [];
     tb_questions := [[0; 2; 2]]; tb_copy_mask := []; tb_src2trg_map := [] |}.

(** The decoder proposes, for every example, the input id plus 2. *)
Definition decode_plus2 (model : Net) (inputs : list Z) (nodes : Tensor)
    (hidden : Hidden) (mask copy_mask src2trg_map : Tensor)
  : outcome (Tensor * Hidden) :=
  Returns (map (fun x => x + 2) inputs, S hidden).

(** A decoder whose first step fails an assertion that has no message. *)
Definition decode_asserts (model : Net) (inputs : list Z) (nodes : Tensor)
    (hidden : Hidden) (mask copy_mask src2trg_map : Tensor)
  : outcome (Tensor * Hidden) :=
  Raises (Exn "AssertionError" EmptyString).

(** A decoder whose first step is interrupted from the keyboard. *)
Definition decode_interrupted (model : Net) (inputs : list Z) (nodes : Tensor)
    (hidden : Hidden) (mask copy_mask src2trg_map : Tensor)
  : outcome (Tensor * Hidden) :=
  Raises (BaseExn "KeyboardInterrupt" EmptyString).

Definition world
    (materialize : string -> option string -> string -> string -> outcome string)
    (loader : string -> outcome (@Checkpoint Float PyObj))
    (decoder : Net -> list Z -> Tensor -> Hidden -> Tensor -> Tensor -> Tensor ->
               outcome (Tensor * Hidden))
  : @World Float Tensor Hidden PyObj Net :=
  {| EvaluationResult_new := result0;
     logger_info := fun _ => Returns tt;
     build_input_sql_json := materialize;
     torch_load := loader;
     SeqDataset := new_dataset;
     TreeDataset := new_dataset;
     TYPE_NUM := 5;
     to_device := fun _ => Returns tt;
     load_state_dict := fun _ _ => Returns tt;
     DataLoader := fun _ _ => [tt];
     get_seq_batch_data := fun _ _ _ _ _ => Returns seq_batch;
     get_tree_batch_data := fun _ => Returns tree_batch;
     encode := fun _ _ => Returns ([], 0%nat, []);
     decode := decoder;
     argmax := fun cur_out => cur_out;
     get_metric := fun predictions _ _ _ _ =>
                     Returns ([PyFloat tt], ["show the names"]) |}.

Definition w_ok := world materialize_ok load decode_plus2.

(** Every checkpoint is on disk. *)
Definition w_all := world materialize_ok load_all decode_plus2.

(** [w_ok] without the tree training corpus: [TreeDataset] raises. *)
Definition w_no_tree_corpus : @World Float Tensor Hidden PyObj Net :=
  {| EvaluationResult_new := result0;
     logger_info := fun _ => Returns tt;
     build_input_sql_json := materialize_ok;
     torch_load := load;
     SeqDataset := new_dataset;
     TreeDataset := fun _ _ _ =>
       Raises (Exn "FileNotFoundError" "No such file or directory");
     TYPE_NUM := 5;
     to_device := fun _ => Returns tt;
     load_state_dict := fun _ _ => Returns tt;
     DataLoader := fun _ _ => [tt];
     get_seq_batch_data := fun _ _ _ _ _ => Returns seq_batch;
     get_tree_batch_data := fun _ => Returns tree_batch;
     encode := fun _ _ => Returns ([], 0%nat, []);
     decode := decode_plus2;
     argmax := fun cur_out => cur_out;
     get_metric := fun predictions _ _ _ _ =>
                     Returns ([PyFloat tt], ["show the names"]) |}.

(** [w_ok] outside an application context: every logger call of a
    start-up function raises. *)
Definition w_no_app_context : @World Float Tensor Hidden PyObj Net :=
  {| EvaluationResult_new := result0;
     logger_info := fun _ =>
       Raises (Exn "RuntimeError" "Working outside of application context.");
     build_input_sql_json := materialize_ok;
     torch_load := load;
     SeqDataset := new_dataset;
     TreeDataset := new_dataset;
     TYPE_NUM := 5;
     to_device := fun _ => Returns tt;
     load_state_dict := fun _ _ => Returns tt;
     DataLoader := fun _ _ => [tt];
     get_seq_batch_data := fun _ _ _ _ _ => Returns seq_batch;
     get_tree_batch_data := fun _ => Returns tree_batch;
     encode := fun _ _ => Returns ([], 0%nat, []);
     decode := decode_plus2;
     argmax := fun cur_out => cur_out;
     get_metric := fun predictions _ _ _ _ =>
                     Returns ([PyFloat tt], ["show the names"]) |}.

Definition encoded0 : @Encoded Tensor Hidden :=
  {| enc_nodes := []; enc_hidden := 0%nat; enc_mask := [];
     enc_questions := [[0; 2; 2]]; enc_copy_mask := []; enc_src2trg_map := [] |}.

Definition globals_empty : @Globals Float PyObj :=
  {| checkpoint_dict := ∅; train_seq_dataset := None;
     train_tree_dataset := None |}.

(** Both training datasets built, no checkpoint loaded yet. *)
Definition globals_datasets : @Globals Float PyObj :=
  {| checkpoint_dict := ∅;
     train_seq_dataset := Some (dataset_of vocab0);
     train_tree_dataset := Some (dataset_of vocab1) |}.

(** The registry after start-up in a world where every load succeeds. *)
Definition globals_ready : @Globals Float PyObj :=
  (@setup_checkpoints _ _ _ _ _ (world materialize_ok load_all decode_plus2)
     globals_datasets).2.

(** The BiLSTM checkpoint loaded, the training datasets not built. *)
Definition globals_no_datasets : @Globals Float PyObj :=
  {| checkpoint_dict := {[ "BiLSTM" := checkpoint_of "BiLSTM" ]};
     train_seq_dataset := None;
     train_tree_dataset := None |}.


End Small.

(** ** Renderings used by the statements *)

(** The supported tags the way Python renders the list inside an
    f-string. *)
Definition SUPPORTED_MODELS_repr : string :=
  "['BiLSTM', 'Relative-Transformer', 'Transformer', 'TreeLSTM']".

(** The tag whose branch of [build_model] constructs a network of the
    given class. *)
Definition model_tag {Float : Type} (m : @Bridge.Model Float) : string :=
  match m with
  | Bridge.BiLSTM _ _ _ _ _ _ _ => "BiLSTM"
  | Bridge.RelativeTransformer _ _ _ _ _ _ _ _ _ _ _ _ _ _ => "Relative-Transformer"
  | Bridge.AbsoluteTransformer _ _ _ _ _ _ _ _ _ _ _ _ => "Transformer"
  | Bridge.TreeLSTM _ _ _ _ _ _ _ _ => "TreeLSTM"
  end.

(** Modelled from the spec: the classes [SeqDataset] and [TreeDataset]
    of [Data.dataset] are not among the sources; section 4.2 says an
    evaluation dataset is constructed "bound to the given Vocabulary
    object".  A constructor meets that when the dataset it returns for
    [vocab=v] holds [v] itself. *)
Definition binds_given_vocab {PyObj : Type}
    (ctor : list string -> string -> option Bridge.Vocab ->
            outcome (@Bridge.Dataset PyObj)) : Prop :=
  forall files table v d,
    ctor files table (Some v) = Returns d -> Bridge.ds_vocab d = v.

(** Following section 4.5 of the specification, the decoder as a
    state machine on (currentInputToken, hiddenState): a transition
    decodes, selects [nextToken] by argmax, and feeds forward
    [nextToken] with every id at or above the vocabulary size replaced
    by the unknown id.  The trace lists, for each of [n] transitions in
    order, the selected [nextToken] and the token fed forward; tokens
    are one id per example of the batch. *)
Fixpoint spec_decode_trace {Float Tensor Hidden PyObj Net : Type}
    {W : @Bridge.World Float Tensor Hidden PyObj Net}
    (model : Net) (enc : @Bridge.Encoded Tensor Hidden) (vocab : Bridge.Vocab)
    (n : nat) (inputToken : list Z) (hiddenState : Hidden)
  : outcome (list (list Z * list Z)) :=
  match n with
  | O => Returns []
  | S n' =>
      match Bridge.decode model inputToken (Bridge.enc_nodes enc) hiddenState
              (Bridge.enc_mask enc) (Bridge.enc_copy_mask enc)
              (Bridge.enc_src2trg_map enc) with
      | Raises e => Raises e
      | Returns (logits, hiddenState') =>
          let nextToken := Bridge.argmax logits in
          let fedForward :=
            map (fun id => if Bridge.vocab_size vocab <=? id
                           then Bridge.vocab_unk_idx vocab else id) nextToken in
          match spec_decode_trace model enc vocab n' fedForward hiddenState' with
          | Raises e => Raises e
          | Returns rest => Returns ((nextToken, fedForward) :: rest)
          end
      end
  end.

(** An id the closed vocabulary can name, or the unknown id. *)
Definition in_vocab_or_unk (vocab : Bridge.Vocab) (x : Z) : Prop :=
  x < Bridge.vocab_size vocab \/ x = Bridge.vocab_unk_idx vocab.

(** ** Strings *)

Section Strings.

Lemma str_app_cons (c : Ascii.ascii) (a b : string) :
  String c a +:+ b = String c (a +:+ b).
Proof. reflexivity. Qed.

Lemma str_app_nil_l (a : string) : EmptyString +:+ a = a.
Proof. reflexivity. Qed.

Lemma str_app_assoc (a b c : string) : (a +:+ b) +:+ c = a +:+ b +:+ c.
Proof.
  induction a as [|x a IH]; [reflexivity|].
  rewrite !str_app_cons. by rewrite IH.
Qed.

Lemma startswith_app (p s : string) : startswith (p +:+ s) p = true.
Proof.
  induction p as [|c p IH]; [reflexivity|].
  rewrite str_app_cons. simpl. by rewrite Ascii.eqb_refl.
Qed.

Lemma str_in_unfold (sub s : string) :
  str_in sub s =
  startswith s sub ||
  match s with
  | EmptyString => false
  | String _ s' => str_in sub s'
  end.
Proof. by destruct s. Qed.

(** [str_in] finds every occurrence. *)
Lemma str_in_complete (s sub : string) : contains s sub -> str_in sub s = true.
Proof.
  intros (pre & post & ->).
  induction pre as [|c pre IH].
  - rewrite str_app_nil_l, str_in_unfold, startswith_app. reflexivity.
  - rewrite str_app_cons, str_in_unfold, IH. apply orb_true_r.
Qed.

Lemma startswith_sound (s p : string) :
  startswith s p = true -> exists post, s = p +:+ post.
Proof.
  revert s. induction p as [|c p IH]; intros s H.
  - by exists s.
  - destruct s as [|d s]; [discriminate|]. simpl in H.
    destruct (Ascii.eqb c d) eqn:E; [|discriminate].
    apply Ascii.eqb_eq in E as ->. apply IH in H as [post ->].
    by exists post.
Qed.

(** [str_in] reports only occurrences. *)
Lemma str_in_sound (s sub : string) : str_in sub s = true -> contains s sub.
Proof.
  induction s as [|c s IH]; rewrite str_in_unfold, orb_true_iff.
  - intros [H|?]; [|discriminate].
    apply startswith_sound in H as [post ->]. by exists EmptyString, post.
  - intros [H|H].
    + apply startswith_sound in H as [post ->]. by exists EmptyString, post.
    + destruct (IH H) as (pre & post & ->). by exists (String c pre), post.
Qed.

Lemma contains_middle (pre sub post : string) :
  contains (pre +:+ sub +:+ post) sub.
Proof. by exists pre, post. Qed.

Lemma contains_trans (s mid sub : string) :
  contains s mid -> contains mid sub -> contains s sub.
Proof.
  intros (p1 & q1 & ->) (p2 & q2 & ->).
  exists (p1 +:+ p2), (q2 +:+ q1). by rewrite !str_app_assoc.
Qed.

Lemma SUPPORTED_MODELS_repr_holds (tag : string) :
  tag ∈ Bridge.SUPPORTED_MODELS -> contains SUPPORTED_MODELS_repr tag.
Proof.
  unfold Bridge.SUPPORTED_MODELS. rewrite !elem_of_cons.
  intros [->|[->|[->|[->|H]]]];
    [apply str_in_sound; reflexivity..|by apply elem_of_nil in H].
Qed.

End Strings.

Import Bridge.

(** ** Registry and factory *)

Section Registry.
Context {Float Tensor Hidden PyObj Net : Type}.
Context {W : @World Float Tensor Hidden PyObj Net}.
Implicit Types (g : @Globals Float PyObj) (model : string).

Lemma py_in_true (x : string) (xs : list string) : py_in x xs = true <-> x ∈ xs.
Proof. unfold py_in. apply bool_decide_eq_true. Qed.

Lemma py_in_false (x : string) (xs : list string) : py_in x xs = false <-> x ∉ xs.
Proof. unfold py_in. apply bool_decide_eq_false. Qed.

(** How one iteration of the loop of [setup_checkpoints] can end:
    before the registry is written, with the exception of the first
    logger call or of [torch.load]; or after it, normally or with the
    exception of the second logger call. *)
Lemma load_checkpoint_inv model g o g' :
  load_checkpoint model g = (o, g') ->
  (g' = g
   /\ exists e, o = Raises e
        /\ ((exists msg, logger_info msg = Raises e)
            \/ torch_load (get_checkpoint_path model) = Raises e))
  \/ (exists ck,
        torch_load (get_checkpoint_path model) = Returns ck
        /\ g' = set_checkpoint model ck g
        /\ (o = Returns tt
            \/ exists e msg, o = Raises e /\ logger_info msg = Raises e)).
Proof.
  unfold load_checkpoint.
  cbv beta iota zeta delta [bind call read write ret].
  destruct (logger_info _) as [[]|e1] eqn:Hlog1.
  2:{ intros H. simplify_eq. left. split; [done|].
      exists e1. split; [done|]. left. by eexists. }
  destruct (torch_load _) as [ck|e2] eqn:Hload.
  2:{ intros H. simplify_eq. left. split; [done|].
      exists e2. split; [done|]. by right. }
  match goal with
  | |- context [logger_info ?msg] =>
      destruct (logger_info msg) as [[]|e3] eqn:Hlog2
  end; intros H; simplify_eq;
    right; exists ck; (split; [done|]); (split; [done|]).
  - by left.
  - right. by eexists e3, _.
Qed.

Lemma load_checkpoint_total model g ck :
  (forall msg, logger_info msg = Returns tt) ->
  torch_load (get_checkpoint_path model) = Returns ck ->
  load_checkpoint model g = (Returns tt, set_checkpoint model ck g).
Proof.
  intros Hlog Hload. unfold load_checkpoint.
  cbv beta iota zeta delta [bind call read write ret].
  by rewrite !Hlog, Hload.
Qed.

(** Loading the tags of a list one after the other keeps what was
    loaded and, when the run returns, ends with all of them loaded. *)
Lemma for_each_load_checkpoint (tags : list string) g g' :
  for_each tags load_checkpoint g = (Returns tt, g') ->
  forall model,
    (model ∈ tags \/ is_Some (checkpoint_dict g !! model)) ->
    is_Some (checkpoint_dict g' !! model).
Proof.
  revert g. induction tags as [|t tags IH]; intros g Hrun model Hin.
  - simpl in Hrun. unfold ret in Hrun. simplify_eq.
    destruct Hin as [Hin|?]; [by apply elem_of_nil in Hin|done].
  - simpl in Hrun. unfold bind in Hrun.
    destruct (load_checkpoint t g) as [o g1] eqn:Hstep.
    apply load_checkpoint_inv in Hstep
      as [(_ & e & -> & _)|(ck & _ & -> & [->|(e & msg & -> & _)])];
      try discriminate.
    apply (IH _ Hrun). simpl.
    destruct (decide (model = t)) as [->|Hne].
    + right. rewrite lookup_insert_eq. eauto.
    + destruct Hin as [Hin|Hin].
      * apply elem_of_cons in Hin as [?|?]; [done|by left].
      * right. by rewrite lookup_insert_ne.
Qed.

(** What a returning or a raising run of [setup_checkpoints] says
    about the loop inside it. *)
Lemma setup_checkpoints_inv g o g' :
  setup_checkpoints g = (o, g') ->
  (exists e, o = Raises e
             /\ for_each SUPPORTED_MODELS load_checkpoint g = (Raises e, g'))
  \/ (for_each SUPPORTED_MODELS load_checkpoint g = (Returns tt, g')
      /\ (o = Returns tt
          \/ exists e msg, o = Raises e /\ logger_info msg = Raises e)).
Proof.
  unfold setup_checkpoints. unfold bind at 1. unfold call.
  destruct (for_each SUPPORTED_MODELS load_checkpoint g) as [[[]|e] g1].
  - destruct (logger_info _) as [[]|e] eqn:Hlog; intros H; simplify_eq;
      right; (split; [done|]).
    + by left.
    + right. by eexists e, _.
  - intros H. simplify_eq. left. by exists e.
Qed.

Lemma setup_checkpoints_loads_all g g' :
  setup_checkpoints g = (Returns tt, g') ->
  forall model, model ∈ SUPPORTED_MODELS -> is_Some (checkpoint_dict g' !! model).
Proof.
  intros Hrun model Hin.
  apply setup_checkpoints_inv in Hrun as [(e & ? & _)|[Hloop _]]; [done|].
  eapply for_each_load_checkpoint; eauto.
Qed.

(** C4 (amended): [is_ready()] is true exactly when the registry holds
    at least one checkpoint and both training datasets exist; it does
    not ask for every supported tag to be loaded. *)
Theorem is_ready_iff g :
  is_ready g = true <->
  checkpoint_dict g <> ∅
  /\ is_Some (train_seq_dataset g)
  /\ is_Some (train_tree_dataset g).
Proof.
  unfold is_ready.
  rewrite !andb_true_iff, negb_true_iff, Nat.eqb_neq, !bool_decide_eq_true.
  rewrite map_size_empty_iff. tauto.
Qed.

(** C7: [build_model] returns [None] when the hyperparameters or the
    vocabulary are absent or the tag is not supported, and for each of
    the four supported tags it constructs the network of that tag's
    class from the hyperparameters and the vocabulary. *)
Theorem build_model_dispatch :
  (forall vocab, build_model None vocab = None)
  /\ (forall args, build_model args None = None)
  /\ (forall args vocab,
        args_model args ∉ SUPPORTED_MODELS ->
        build_model (Some args) (Some vocab) = None)
  /\ (forall args vocab,
        args_model args = "BiLSTM" ->
        build_model (Some args) (Some vocab) =
        Some (BiLSTM (args_down_embed_dim args) (vocab_size vocab)
                (args_hid_size args) (vocab_pad_idx vocab) (args_dropout args)
                (args_max_oov_num args) (args_copy args)))
  /\ (forall args vocab,
        args_model args = "Relative-Transformer" ->
        build_model (Some args) (Some vocab) =
        Some (RelativeTransformer (args_down_embed_dim args) (vocab_size vocab)
                (args_down_d_model args) (args_down_d_ff args)
                (args_down_head_num args) (args_down_layer_num args)
                (args_hid_size args) (args_dropout args) (vocab_pad_idx vocab)
                (args_down_max_dist args) (args_max_oov_num args)
                (args_copy args) (args_rel_share args) (args_k_v_share args)))
  /\ (forall args vocab,
        args_model args = "Transformer" ->
        build_model (Some args) (Some vocab) =
        Some (AbsoluteTransformer (args_down_embed_dim args) (vocab_size vocab)
                (args_down_d_model args) (args_down_d_ff args)
                (args_down_head_num args) (args_down_layer_num args)
                (args_hid_size args) (args_dropout args) (vocab_pad_idx vocab)
                (args_max_oov_num args) (args_copy args)
                (args_absolute_pos args)))
  /\ (forall args vocab,
        args_model args = "TreeLSTM" ->
        build_model (Some args) (Some vocab) =
        Some (TreeLSTM (args_down_embed_dim args) (vocab_size vocab) TYPE_NUM
                (args_hid_size args) (args_dropout args) (vocab_pad_idx vocab)
                (args_max_oov_num args) (args_copy args)))
  /\ (forall args vocab m,
        build_model args vocab = Some m ->
        exists a, args = Some a /\ is_Some vocab /\ model_tag m = args_model a).
Proof.
  repeat apply conj.
  - done.
  - by intros [?|].
  - intros args vocab Hnot. unfold SUPPORTED_MODELS in Hnot.
    rewrite !not_elem_of_cons in Hnot.
    destruct Hnot as (H1 & H2 & H3 & H4 & _).
    apply String.eqb_neq in H1, H2, H3, H4.
    unfold build_model. by rewrite H1, H2, H3, H4.
  - intros args vocab H. unfold build_model. by rewrite H.
  - intros args vocab H. unfold build_model. by rewrite H.
  - intros args vocab H. unfold build_model. by rewrite H.
  - intros args vocab H. unfold build_model. by rewrite H.
  - intros [a|] [v|] m H; try discriminate.
    exists a. split; [done|]. split; [by eexists|].
    unfold build_model in H.
    repeat match type of H with
    | (if String.eqb ?x ?y then _ else _) = _ =>
        let E := fresh "E" in
        destruct (String.eqb x y) eqn:E;
        [ apply String.eqb_eq in E; inversion H; subst m; by rewrite E
        | clear E ]
    end.
    discriminate.
Qed.

End Registry.

(** ** Datasets *)

Section Datasets.
Context {Float Tensor Hidden PyObj Net : Type}.
Context {W : @World Float Tensor Hidden PyObj Net}.
Implicit Types (g : @Globals Float PyObj) (model : string).

Lemma get_train_dataset_seq g model :
  model ∈ SEQ_MODELS -> get_train_dataset g model = train_seq_dataset g.
Proof. intros H. unfold get_train_dataset. by rewrite (proj2 (py_in_true _ _) H). Qed.

Lemma get_train_dataset_tree g :
  get_train_dataset g "TreeLSTM" = train_tree_dataset g.
Proof. reflexivity. Qed.

Lemma supported_cases model :
  model ∈ SUPPORTED_MODELS -> model ∈ SEQ_MODELS \/ model = "TreeLSTM".
Proof.
  unfold SUPPORTED_MODELS, SEQ_MODELS. rewrite !elem_of_cons.
  intros [->|[->|[->|[->|H]]]]; auto 6.
Qed.

(** What [build_dataset] hands to the constructor: the vocabulary of
    the cached training dataset of the tag's family. *)
Lemma build_dataset_seq g model path train_set :
  model ∈ SEQ_MODELS ->
  train_seq_dataset g = Some train_set ->
  build_dataset g model path =
  (test_set ← SeqDataset [path] TRAIN_TABLE_FILE_PATH (Some (ds_vocab train_set));
   Returns (Some test_set)).
Proof.
  intros Hin Htrain. unfold build_dataset.
  rewrite (proj2 (py_in_true _ _) Hin), (get_train_dataset_seq _ _ Hin), Htrain.
  reflexivity.
Qed.

Lemma build_dataset_tree g path train_set :
  train_tree_dataset g = Some train_set ->
  build_dataset g "TreeLSTM" path =
  (test_set ← TreeDataset [path] TRAIN_TABLE_FILE_PATH (Some (ds_vocab train_set));
   Returns (Some test_set)).
Proof.
  intros Htrain. unfold build_dataset. simpl.
  rewrite get_train_dataset_tree, Htrain. reflexivity.
Qed.

(** C5: the vocabulary of the evaluation dataset [build_dataset]
    returns for a supported tag is the very object owned by the cached
    training dataset of that tag's family: [train_seq_dataset] for the
    three sequence tags, [train_tree_dataset] for TreeLSTM.  The
    constructors are taken to keep the vocabulary they are given. *)
Theorem build_dataset_shares_vocab g model path test_set :
  binds_given_vocab SeqDataset ->
  binds_given_vocab TreeDataset ->
  model ∈ SUPPORTED_MODELS ->
  build_dataset g model path = Returns (Some test_set) ->
  exists train_set,
    get_train_dataset g model = Some train_set
    /\ (if py_in model SEQ_MODELS then train_seq_dataset g
        else train_tree_dataset g) = Some train_set
    /\ py_is (ds_vocab test_set) (ds_vocab train_set)
    /\ ds_vocab test_set = ds_vocab train_set.
Proof.
  intros Hseq Htree Hin Hbuild.
  destruct (supported_cases _ Hin) as [Hs| ->].
  - rewrite (get_train_dataset_seq _ _ Hs), (proj2 (py_in_true _ _) Hs).
    unfold build_dataset in Hbuild.
    rewrite (proj2 (py_in_true _ _) Hs), (get_train_dataset_seq _ _ Hs) in Hbuild.
    destruct (train_seq_dataset g) as [train_set|]; [|discriminate].
    exists train_set. simpl in Hbuild.
    destruct (SeqDataset _ _ _) as [d|e] eqn:Hctor; [|discriminate].
    simpl in Hbuild. injection Hbuild as <-.
    apply Hseq in Hctor. unfold py_is. by rewrite Hctor.
  - rewrite get_train_dataset_tree. simpl.
    unfold build_dataset in Hbuild. simpl in Hbuild.
    rewrite get_train_dataset_tree in Hbuild.
    destruct (train_tree_dataset g) as [train_set|]; [|discriminate].
    exists train_set. simpl in Hbuild.
    destruct (TreeDataset _ _ _) as [d|e] eqn:Hctor; [|discriminate].
    simpl in Hbuild. injection Hbuild as <-.
    apply Htree in Hctor. unfold py_is. by rewrite Hctor.
Qed.

End Datasets.

(** ** The orchestrator *)

Section Orchestrator.
Context {Float Tensor Hidden PyObj Net : Type}.
Context {W : @World Float Tensor Hidden PyObj Net}.
Implicit Types (g : @Globals Float PyObj) (model : string).
Implicit Types (res r : @EvaluationResult Float).

Ltac run_monad :=
  cbv beta iota zeta delta [bind call read write ret try_except] in *.

(** Whatever the [try] block does, it leaves the three attributes
    [predict] wrote alone. *)
Lemma run_sql2text_try_frame model path res g r g' :
  run_sql2text_try model path res g = (Returns r, g') ->
  modelName r = modelName res
  /\ original r = original res
  /\ hasScore r = hasScore res.
Proof.
  unfold run_sql2text_try. run_monad.
  repeat case_match; intros; simplify_eq; done.
Qed.

(** [run_sql2text] by the outcome of its [try] block: a result is
    passed on, an exception that derives from [Exception] becomes the
    failure reason, any other exception leaves the function. *)
Lemma run_sql2text_cases model path res g :
  run_sql2text model path res g =
  match run_sql2text_try model path res g with
  | (Returns r, g1) => (Returns r, g1)
  | (Raises e, g1) =>
      if is_Exception e
      then (Returns (set_failedReason (exn_str e) res), g1)
      else (Raises e, g1)
  end.
Proof.
  unfold run_sql2text, try_except.
  destruct (run_sql2text_try model path res g) as [[r|e] g1]; [done|].
  by destruct (is_Exception e).
Qed.

Lemma run_sql2text_frame model path res g r g' :
  run_sql2text model path res g = (Returns r, g') ->
  modelName r = modelName res
  /\ original r = original res
  /\ hasScore r = hasScore res.
Proof.
  rewrite run_sql2text_cases.
  destruct (run_sql2text_try model path res g) as [[r1|e] g1] eqn:Htry.
  - intros H. simplify_eq. by eapply run_sql2text_try_frame.
  - destruct (is_Exception e); intros H; by simplify_eq.
Qed.

Lemma new_result_fields model (gold : option string) (sql : string) :
  modelName (new_result model gold sql) = model
  /\ original (new_result model gold sql) = sql
  /\ hasScore (new_result model gold sql)
     = ne_None gold && ne_str gold EmptyString
  /\ success (new_result model gold sql) = success EvaluationResult_new.
Proof. done. Qed.

(** The three attributes of every result [predict] returns. *)
Lemma predict_frame model db_id (gold : option string) sql identifier g r g' :
  predict model db_id gold sql identifier g = (Returns r, g') ->
  modelName r = model
  /\ original r = sql
  /\ hasScore r = ne_None gold && ne_str gold EmptyString.
Proof.
  unfold predict. intros H.
  destruct (negb (py_in model SUPPORTED_MODELS)).
  { unfold ret in H. by simplify_eq. }
  unfold bind, call in H.
  destruct (build_input_sql_json _ _ _ _) as [path|e]; [|discriminate].
  destruct (String.eqb path EmptyString).
  { unfold ret in H. by simplify_eq. }
  apply run_sql2text_frame in H as (Hm & Ho & Hs).
  by rewrite Hm, Ho, Hs.
Qed.

(** An exception of the [try] block that does not derive from
    [Exception] leaves [predict]. *)
Lemma predict_propagates_outside_Exception
    model db_id (gold : option string) sql identifier g path e g1 :
  model ∈ SUPPORTED_MODELS ->
  build_input_sql_json db_id gold sql (identifier +:+ "@" +:+ model)
    = Returns path ->
  path <> EmptyString ->
  run_sql2text_try model path (new_result model gold sql) g = (Raises e, g1) ->
  is_Exception e = false ->
  predict model db_id gold sql identifier g = (Raises e, g1).
Proof.
  intros Hin Hmat Hpath Htry He. unfold predict.
  rewrite (proj2 (py_in_true _ _) Hin). simpl. unfold bind, call.
  rewrite Hmat, (proj2 (String.eqb_neq _ _) Hpath).
  by rewrite run_sql2text_cases, Htry, He.
Qed.

(** C2 (amended): on every input for which the request materializer
    returns and for which whatever the [try] block of [run_sql2text]
    raises is an instance of [Exception], [predict] returns a result;
    such an exception is caught there, and the result then has
    [success] false, as [EvaluationResult()] set it, and
    [failedReason] equal to [str(err)], whatever that text is. *)
Theorem predict_catches_pipeline_faults
    model db_id (gold : option string) sql identifier g path :
  success EvaluationResult_new = false ->
  build_input_sql_json db_id gold sql (identifier +:+ "@" +:+ model)
    = Returns path ->
  (forall e g1,
     run_sql2text_try model path (new_result model gold sql) g
       = (Raises e, g1) ->
     is_Exception e = true) ->
  exists r g',
    predict model db_id gold sql identifier g = (Returns r, g')
    /\ (forall e g1,
          model ∈ SUPPORTED_MODELS ->
          path <> EmptyString ->
          run_sql2text_try model path (new_result model gold sql) g
            = (Raises e, g1) ->
          success r = false /\ failedReason r = exn_str e /\ g' = g1).
Proof.
  intros Hnew Hmat Hclass. unfold predict.
  destruct (py_in model SUPPORTED_MODELS) eqn:Hin; simpl.
  - unfold bind, call. rewrite Hmat.
    destruct (String.eqb path EmptyString) eqn:Hpath.
    + apply String.eqb_eq in Hpath. eexists _, g. split; [reflexivity|].
      intros; contradiction.
    + rewrite run_sql2text_cases.
      destruct (run_sql2text_try model path (new_result model gold sql) g)
        as [[r|e] g1] eqn:Htry.
      * exists r, g1. split; [done|]. intros; discriminate.
      * rewrite (Hclass e g1 eq_refl). eexists _, g1. split; [reflexivity|].
        intros e' g2 _ _ H. by simplify_eq.
  - apply py_in_false in Hin. eexists _, g. split; [reflexivity|].
    intros; contradiction.
Qed.

(** C6: for a tag outside the supported set, [predict] returns a
    result with [success] false whose [failedReason] holds the tag and
    the list of supported models, each of the four tags in list order
    as the f-string renders the list. *)
Theorem predict_unsupported_tag
    model db_id (gold : option string) sql identifier g :
  model ∉ SUPPORTED_MODELS ->
  success EvaluationResult_new = false ->
  exists r,
    predict model db_id gold sql identifier g = (Returns r, g)
    /\ success r = false
    /\ contains (failedReason r) model
    /\ contains (failedReason r) SUPPORTED_MODELS_repr
    /\ (forall tag, tag ∈ SUPPORTED_MODELS -> contains (failedReason r) tag).
Proof.
  intros Hnot Hnew. unfold predict.
  rewrite (proj2 (py_in_false _ _) Hnot). simpl.
  eexists. split; [reflexivity|]. split; [done|]. simpl.
  assert (Hlist : contains
            ("model '" +:+ model +:+ "' is not in supported models "
             +:+ repr_list SUPPORTED_MODELS +:+ "!") SUPPORTED_MODELS_repr).
  { exists ("model '" +:+ model +:+ "' is not in supported models "), "!".
    by rewrite !str_app_assoc. }
  split; [apply contains_middle|]. split; [exact Hlist|].
  intros tag Htag. eapply contains_trans; [exact Hlist|].
  by apply SUPPORTED_MODELS_repr_holds.
Qed.

(** C8: the [hasScore] attribute of the result [predict] returns is
    true exactly when the gold text is neither [None] nor the empty
    string. *)
Theorem predict_hasScore
    model db_id (gold : option string) sql identifier g r g' :
  predict model db_id gold sql identifier g = (Returns r, g') ->
  hasScore r = true <-> gold <> None /\ gold <> Some EmptyString.
Proof.
  intros H. apply predict_frame in H as (_ & _ & ->).
  destruct gold as [t|]; simpl.
  - rewrite negb_true_iff, String.eqb_neq. split.
    + intros Hne. split; congruence.
    + intros [_ Hne]. congruence.
  - split; [discriminate|]. by intros [? _].
Qed.

(** C9: whatever path [predict] takes, the result it returns carries
    the architecture argument in [modelName] and the query text in
    [original]. *)
Theorem predict_keeps_request
    model db_id (gold : option string) sql identifier g r g' :
  predict model db_id gold sql identifier g = (Returns r, g') ->
  modelName r = model /\ original r = sql.
Proof. intros H. apply predict_frame in H as (? & ? & _). done. Qed.


End Orchestrator.

(** ** The decode loop *)

Section DecodeLoop.
Context {Float Tensor Hidden PyObj Net : Type}.
Context {W : @World Float Tensor Hidden PyObj Net}.
Variables (model : Net) (enc : @Encoded Tensor Hidden) (vocab : Vocab).

Local Notation "'step'" := (decode_step model enc vocab).

Lemma alter_fresh {A} (f : A -> A) (l : list A) (a : A) :
  alter f (length l) (l ++ [a]) = l ++ [f a].
Proof.
  replace (length l) with (length l + 0)%nat by lia.
  by rewrite alter_app_r.
Qed.

Lemma deref_app_l (store ts : list (list Z)) (ref : nat) :
  (ref < length store)%nat -> deref (store ++ ts) ref = deref store ref.
Proof. intros H. unfold deref. by rewrite lookup_app_l. Qed.

Lemma deref_fresh (store : list (list Z)) (t : list Z) :
  deref (store ++ [t]) (length store) = t.
Proof. unfold deref. by rewrite list_lookup_middle. Qed.

(** Reading back the tensors appended to a store, in order. *)
Lemma map_deref_seq (store ts : list (list Z)) :
  map (deref (store ++ ts)) (seq (length store) (length ts)) = ts.
Proof.
  revert store. induction ts as [|t ts IH]; intros store; [done|].
  simpl. f_equal.
  - unfold deref. by rewrite list_lookup_middle.
  - specialize (IH (store ++ [t])).
    rewrite length_app, <- app_assoc in IH. simpl in IH.
    by rewrite Nat.add_1_r in IH.
Qed.

Lemma masked_assign_length (size unk : Z) (t : list Z) :
  length (masked_assign size unk t) = length t.
Proof. unfold masked_assign. by rewrite length_map. Qed.

Lemma masked_assign_in_vocab_or_unk (t : list Z) :
  Forall (in_vocab_or_unk vocab)
         (masked_assign (vocab_size vocab) (vocab_unk_idx vocab) t).
Proof.
  unfold masked_assign. apply Forall_map, Forall_forall. intros x _.
  unfold in_vocab_or_unk. simpl.
  destruct (x >=? vocab_size vocab) eqn:E; [by right|left].
  rewrite Z.geb_leb in E. by apply Z.leb_gt in E.
Qed.

(** One iteration: a new tensor enters the store, already overwritten
    by the masked assignment, and both [preds] and [inputs] refer to it. *)
Lemma decode_step_inv (st st' : DecodeState) :
  step st = Returns st' ->
  exists cur_out hidden,
    decode model (deref (st_store st) (st_inputs st)) (enc_nodes enc)
           (st_hidden st) (enc_mask enc) (enc_copy_mask enc)
           (enc_src2trg_map enc) = Returns (cur_out, hidden)
    /\ st' = {| st_store := st_store st ++
                  [masked_assign (vocab_size vocab) (vocab_unk_idx vocab)
                                 (argmax cur_out)];
                st_inputs := length (st_store st);
                st_hidden := hidden;
                st_preds := st_preds st ++ [length (st_store st)] |}.
Proof.
  unfold decode_step. intros H.
  destruct (decode _ _ _ _ _ _ _) as [[cur_out hidden]|e]; [|discriminate].
  exists cur_out, hidden. split; [done|].
  simpl in H. rewrite alter_fresh in H. by injection H as <-.
Qed.

(** The tensor recorded by an iteration is the tensor fed forward. *)
Lemma decode_step_recorded_is_fed (st st' : DecodeState) :
  step st = Returns st' ->
  exists ref,
    st_preds st' = st_preds st ++ [ref]
    /\ st_inputs st' = ref
    /\ Forall (in_vocab_or_unk vocab) (deref (st_store st') ref).
Proof.
  intros H. apply decode_step_inv in H as (cur_out & hidden & _ & ->).
  exists (length (st_store st)). simpl. repeat split.
  rewrite deref_fresh. apply masked_assign_in_vocab_or_unk.
Qed.

(** [n] iterations append [n] tensors to the store and [n] references,
    one per iteration and in order, to [preds]. *)
Lemma for_range_decode_step (n : nat) (st st' : DecodeState) :
  for_range n step st = Returns st' ->
  exists ts,
    length ts = n
    /\ st_store st' = st_store st ++ ts
    /\ st_preds st' = st_preds st ++ seq (length (st_store st)) n
    /\ Forall (Forall (in_vocab_or_unk vocab)) ts.
Proof.
  revert st. induction n as [|n IH]; intros st H.
  - simpl in H. injection H as <-. exists []. by rewrite !app_nil_r.
  - simpl in H. destruct (step st) as [st1|e] eqn:Hstep; [|discriminate].
    simpl in H. apply IH in H as (ts & Hlen & Hstore & Hpreds & Hts).
    apply decode_step_inv in Hstep as (cur_out & hidden & _ & ->).
    simpl in *. rewrite length_app in Hpreds. simpl in Hpreds.
    eexists (_ :: ts). repeat split.
    + simpl. by rewrite Hlen.
    + by rewrite Hstore, <- app_assoc.
    + rewrite Hpreds, <- app_assoc. simpl. by rewrite Nat.add_1_r.
    + constructor; [apply masked_assign_in_vocab_or_unk|done].
Qed.

Lemma bind_Returns {A B} (a : A) (k : A -> outcome B) :
  (Returns a ≫= k) = k a.
Proof. reflexivity. Qed.

Lemma bind_Raises {A B} (e : exn) (k : A -> outcome B) :
  (Raises e ≫= k) = Raises e.
Proof. reflexivity. Qed.

Lemma column0_length (questions : list (list Z)) (inputs : list Z) :
  column0 questions = Returns inputs -> length inputs = length questions.
Proof.
  revert inputs. induction questions as [|q qs IH]; intros inputs H.
  - by injection H as <-.
  - destruct q as [|x q]; [discriminate|]. simpl in H.
    destruct (column0 qs) as [inputs'|e]; [|discriminate].
    simpl in H. injection H as <-. simpl. by rewrite (IH inputs').
Qed.

(** Every row of the concatenation has one position per tensor, and
    holds only ids of those tensors. *)
Lemma torch_cat_dim1_rows (ts rows : list (list Z)) :
  torch_cat_dim1 ts = Returns rows ->
  Forall (fun row => length row = length ts) rows
  /\ forall P : Z -> Prop, Forall (Forall P) ts -> Forall (Forall P) rows.
Proof.
  unfold torch_cat_dim1. destruct ts as [|t ts']; [discriminate|].
  set (ts := t :: ts'). destruct (forallb _ ts) eqn:Hshape; [|discriminate].
  intros H. injection H as <-. split.
  - apply Forall_map, Forall_forall. intros i _. subst ts. simpl. by rewrite length_map.
  - intros P HP. apply Forall_map, Forall_forall. intros i Hi. cbv beta.
    change (Forall P (map (fun t' => nth i t' 0) ts)).
    apply Forall_map, Forall_forall. intros t' Ht'. cbv beta.
    apply list_elem_of_In, in_seq in Hi.
    rewrite forallb_forall in Hshape.
    specialize (Hshape t' (proj1 (list_elem_of_In _ _) Ht')).
    apply Nat.eqb_eq in Hshape.
    rewrite Forall_forall in HP. specialize (HP t' Ht').
    rewrite Forall_forall in HP. apply HP, list_elem_of_In, nth_In. lia.
Qed.

Lemma torch_cat_dim1_returns (ts : list (list Z)) (B : nat) :
  ts <> [] ->
  Forall (fun t => length t = B) ts ->
  exists rows, torch_cat_dim1 ts = Returns rows /\ length rows = B.
Proof.
  intros Hne Hts. unfold torch_cat_dim1. destruct ts as [|t ts']; [done|].
  set (ts := t :: ts') in *.
  assert (Hshape : forallb (fun t' => (length t' =? length t)%nat) ts = true).
  { apply forallb_forall. intros t' Ht'. apply Nat.eqb_eq.
    rewrite Forall_forall in Hts.
    rewrite (Hts t' (proj2 (list_elem_of_In _ _) Ht')).
    symmetry. apply Hts. by left. }
  rewrite Hshape. eexists. split; [reflexivity|].
  rewrite length_map, length_seq. rewrite Forall_forall in Hts.
  apply Hts. by left.
Qed.

(** What the loop hands to [torch.cat]: the tensors it appended. *)
Lemma decode_batch_unfold (inputs : list Z) (st : DecodeState) :
  column0 (enc_questions enc) = Returns inputs ->
  for_range MAX_DECODE step (decode_init enc inputs) = Returns st ->
  exists ts,
    length ts = MAX_DECODE
    /\ Forall (Forall (in_vocab_or_unk vocab)) ts
    /\ st_store st = [inputs] ++ ts
    /\ length (st_preds st) = MAX_DECODE
    /\ decode_batch model vocab enc = torch_cat_dim1 ts.
Proof.
  intros Hcol Hrun. unfold decode_batch.
  rewrite Hcol, bind_Returns, Hrun, bind_Returns.
  apply for_range_decode_step in Hrun as (ts & Hlen & Hstore & Hpreds & Hts).
  exists ts. repeat split; try done.
  - rewrite Hpreds. change (st_preds (decode_init enc inputs)) with (@nil nat).
    by rewrite app_nil_l, length_seq.
  - rewrite Hpreds, Hstore.
    change (st_store (decode_init enc inputs)) with [inputs].
    change (st_preds (decode_init enc inputs)) with (@nil nat).
    rewrite app_nil_l, <- Hlen.
    by rewrite (map_deref_seq [inputs] ts).
Qed.

(** Whenever the decode loop of a batch returns, every example has
    [MAX_DECODE] positions and every recorded id is one the masked
    assignment left: below the vocabulary size, or the unknown id. *)
Lemma decode_batch_rows (rows : list (list Z)) :
  decode_batch model vocab enc = Returns rows ->
  Forall (fun row => length row = MAX_DECODE) rows
  /\ Forall (Forall (in_vocab_or_unk vocab)) rows.
Proof.
  intros H.
  destruct (column0 (enc_questions enc)) as [inputs|e] eqn:Hcol;
    [|unfold decode_batch in H; rewrite Hcol in H; discriminate].
  destruct (for_range MAX_DECODE step (decode_init enc inputs)) as [st|e] eqn:Hrun;
    [|unfold decode_batch in H;
      rewrite Hcol, bind_Returns, Hrun, bind_Raises in H; discriminate].
  destruct (decode_batch_unfold _ _ Hcol Hrun) as (ts & Hlen & Hts & _ & _ & Heq).
  rewrite Heq in H. apply torch_cat_dim1_rows in H as [Hrows HP].
  split; [by rewrite <- Hlen|by apply HP].
Qed.

Lemma for_range_S {S} (n : nat) (body : S -> outcome S) (s : S) :
  for_range (Datatypes.S n) body s = (body s ≫= for_range n body).
Proof. reflexivity. Qed.

Lemma spec_fed_forward (t : list Z) :
  map (fun id => if vocab_size vocab <=? id then vocab_unk_idx vocab else id) t
  = masked_assign (vocab_size vocab) (vocab_unk_idx vocab) t.
Proof.
  unfold masked_assign. apply map_ext. intros x. by rewrite Z.geb_leb.
Qed.

(** The loop of the code and the state machine of the specification
    go through the same [decode] calls: a run of [n] iterations
    returns exactly when the [n] transitions do, and the tensors it
    appends to the store are the tokens the transitions feed forward. *)
Lemma for_range_spec_trace (n : nat) (st st' : DecodeState) :
  for_range n step st = Returns st' ->
  exists trace,
    spec_decode_trace model enc vocab n
      (deref (st_store st) (st_inputs st)) (st_hidden st) = Returns trace
    /\ length trace = n
    /\ st_store st' = st_store st ++ map snd trace.
Proof.
  revert st. induction n as [|n IH]; intros st H.
  - injection H as <-. exists []. by rewrite app_nil_r.
  - rewrite for_range_S in H.
    destruct (step st) as [st1|e] eqn:Hstep; [|discriminate].
    rewrite bind_Returns in H.
    apply decode_step_inv in Hstep as (cur_out & hidden & Hcall & ->).
    apply IH in H as (rest & Hrest & Hlen & Hstore).
    simpl in Hrest, Hstore. rewrite deref_fresh in Hrest.
    exists ((argmax cur_out,
             masked_assign (vocab_size vocab) (vocab_unk_idx vocab)
                           (argmax cur_out)) :: rest).
    repeat split.
    + simpl. rewrite Hcall, spec_fed_forward, Hrest. reflexivity.
    + simpl. by rewrite Hlen.
    + rewrite Hstore, <- app_assoc. reflexivity.
Qed.

Lemma spec_trace_for_range (n : nat) (st : DecodeState)
    (trace : list (list Z * list Z)) :
  spec_decode_trace model enc vocab n
    (deref (st_store st) (st_inputs st)) (st_hidden st) = Returns trace ->
  exists st', for_range n step st = Returns st'.
Proof.
  revert st trace. induction n as [|n IH]; intros st trace H.
  - by exists st.
  - simpl in H.
    destruct (decode _ _ _ _ _ _ _) as [[cur_out hidden]|e] eqn:Hcall;
      [|discriminate].
    rewrite spec_fed_forward in H.
    set (st1 := {| st_store := st_store st ++
                     [masked_assign (vocab_size vocab) (vocab_unk_idx vocab)
                                    (argmax cur_out)];
                   st_inputs := length (st_store st);
                   st_hidden := hidden;
                   st_preds := st_preds st ++ [length (st_store st)] |}).
    assert (Hstep : step st = Returns st1).
    { unfold decode_step. rewrite Hcall. simpl. by rewrite alter_fresh. }
    destruct (spec_decode_trace model enc vocab n _ hidden) as [rest|e] eqn:Hrest;
      [|discriminate].
    destruct (IH st1 rest) as [st' Hrun].
    { simpl. by rewrite deref_fresh. }
    exists st'. by rewrite for_range_S, Hstep, bind_Returns.
Qed.

Lemma nth_map_lt {A B} (f : A -> B) (l : list A) (k : nat) (d : B) (d' : A) :
  (k < length l)%nat -> nth k (map f l) d = f (nth k l d').
Proof.
  revert k. induction l as [|x l IH]; intros [|k] H; simpl in *;
    try lia; [done|]. apply IH. lia.
Qed.

(** Position [k] of row [i] of the concatenation is id [i] of tensor
    [k]. *)
Lemma torch_cat_dim1_nth (ts rows : list (list Z)) (i k : nat) :
  torch_cat_dim1 ts = Returns rows ->
  (i < length rows)%nat -> (k < length ts)%nat ->
  nth k (nth i rows []) 0 = nth i (nth k ts []) 0.
Proof.
  unfold torch_cat_dim1. destruct ts as [|t ts']; [discriminate|].
  remember (t :: ts') as ts eqn:Hts.
  destruct (forallb _ ts); [|discriminate].
  intros H Hi Hk. injection H as <-.
  rewrite length_map, length_seq in Hi.
  rewrite (nth_map_lt _ _ _ _ 0%nat) by (by rewrite length_seq).
  rewrite seq_nth by done. simpl.
  exact (nth_map_lt (fun t' => nth i t' 0) ts k 0 [] Hk).
Qed.

(** C3: the rows [decode_batch] returns are the outcome of exactly 500
    transitions of the decoder's state machine.  Whenever it returns,
    the 500 successive [decode] calls of the machine, each on the token
    fed forward by the one before, all returned; every example has
    exactly 500 positions, and position [k] of example [i] is the id
    transition [k] fed forward for that example, whatever ids were
    selected.  Conversely it returns whenever those 500 transitions
    return with one id per example. *)
Theorem decode_batch_runs_500_transitions :
  (forall rows,
     decode_batch model vocab enc = Returns rows ->
     exists inputs trace,
       column0 (enc_questions enc) = Returns inputs
       /\ spec_decode_trace model enc vocab 500 inputs (enc_hidden enc)
          = Returns trace
       /\ length trace = 500%nat
       /\ torch_cat_dim1 (map snd trace) = Returns rows
       /\ Forall (fun row => length row = 500%nat) rows
       /\ forall i k, (i < length rows)%nat -> (k < 500)%nat ->
            nth k (nth i rows []) 0 = nth i (snd (nth k trace ([], []))) 0)
  /\ (forall inputs trace,
       column0 (enc_questions enc) = Returns inputs ->
       spec_decode_trace model enc vocab 500 inputs (enc_hidden enc)
         = Returns trace ->
       Forall (fun s => length (snd s) = length inputs) trace ->
       exists rows,
         decode_batch model vocab enc = Returns rows
         /\ length rows = length (enc_questions enc)).
Proof.
  change 500%nat with MAX_DECODE. split.
  - intros rows H.
    destruct (column0 (enc_questions enc)) as [inputs|e] eqn:Hcol;
      [|unfold decode_batch in H; rewrite Hcol in H; discriminate].
    destruct (for_range MAX_DECODE step (decode_init enc inputs))
      as [st|e] eqn:Hrun;
      [|unfold decode_batch in H;
        rewrite Hcol, bind_Returns, Hrun, bind_Raises in H; discriminate].
    destruct (decode_batch_unfold _ _ Hcol Hrun)
      as (ts & Hlen & _ & Hstore & _ & Heq).
    destruct (for_range_spec_trace _ _ _ Hrun) as (trace & Htrace & Hn & Hstore').
    rewrite Hstore in Hstore'. apply app_inv_head in Hstore'. subst ts.
    rewrite Heq in H.
    exists inputs, trace. repeat split; try done.
    + apply torch_cat_dim1_rows in H as [Hrows _]. by rewrite <- Hlen.
    + intros i k Hi Hk.
      rewrite (torch_cat_dim1_nth _ _ i k H Hi) by (by rewrite Hlen).
      f_equal. apply nth_map_lt. by rewrite Hn.
  - intros inputs trace Hcol Htrace Hshape.
    destruct (spec_trace_for_range MAX_DECODE (decode_init enc inputs) trace Htrace)
      as [st Hrun].
    destruct (decode_batch_unfold _ _ Hcol Hrun)
      as (ts & Hlen & _ & Hstore & _ & Heq).
    destruct (for_range_spec_trace _ _ _ Hrun) as (trace' & Htrace' & _ & Hstore').
    change (spec_decode_trace model enc vocab MAX_DECODE
              (deref (st_store (decode_init enc inputs))
                     (st_inputs (decode_init enc inputs)))
              (st_hidden (decode_init enc inputs)))
      with (spec_decode_trace model enc vocab MAX_DECODE inputs (enc_hidden enc))
      in Htrace'.
    rewrite Htrace in Htrace'. injection Htrace' as <-.
    rewrite Hstore in Hstore'. apply app_inv_head in Hstore'. subst ts.
    destruct (torch_cat_dim1_returns (map snd trace) (length inputs))
      as (rows & Hcat & Hrows).
    + intros Hnil. rewrite Hnil in Hlen. discriminate.
    + by apply Forall_map.
    + exists rows. rewrite Heq. split; [done|].
      by rewrite Hrows, (column0_length _ _ Hcol).
Qed.

End DecodeLoop.

(** ** The properties on the small world *)

Section SmallWorld.
Import Small.

Lemma new_dataset_binds : binds_given_vocab new_dataset.
Proof. intros files table v d H. by injection H as <-. Qed.

(** Two vocabularies with the same entries are not the same object. *)
Example equal_entries_distinct_objects :
  vocab_size vocab0 = vocab_size vocab1
  /\ vocab_pad_idx vocab0 = vocab_pad_idx vocab1
  /\ vocab_unk_idx vocab0 = vocab_unk_idx vocab1
  /\ ~ py_is vocab0 vocab1.
Proof. repeat split. unfold py_is. simpl. lia. Qed.

(** C1, on the code: with a vocabulary of size 3 whose unknown id is 1
    and a first input id 0, the second iteration selects id 4.  The id
    fed forward is 1, and the id held at position 1 of [preds] is 1 as
    well, not 4: the masked assignment wrote into the tensor [preds]
    refers to.  The row handed to the metric is 2 followed by 499
    times 1. *)
Theorem copy_id_overwritten_in_preds :
  exists st1 st2 cur_out hidden,
    for_range 1 (@decode_step _ _ _ _ _ w_ok tt encoded0 vocab0)
              (decode_init encoded0 [0]) = Returns st1
    /\ @decode _ _ _ _ _ w_ok tt (deref (st_store st1) (st_inputs st1))
               (enc_nodes encoded0) (st_hidden st1) (enc_mask encoded0)
               (enc_copy_mask encoded0) (enc_src2trg_map encoded0)
       = Returns (cur_out, hidden)
    /\ @argmax _ _ _ _ _ w_ok cur_out = [4]
    /\ 4 >= vocab_size vocab0
    /\ @decode_step _ _ _ _ _ w_ok tt encoded0 vocab0 st1 = Returns st2
    /\ deref (st_store st2) (st_inputs st2) = [vocab_unk_idx vocab0]
    /\ deref (st_store st2) <$> (st_preds st2 !! 1%nat) = Some [1]
    /\ @decode_batch _ _ _ _ _ w_ok tt vocab0 encoded0
       = Returns [2 :: repeat 1 499].
Proof.
  eexists _, _, _, _.
  split; [reflexivity|]. split; [reflexivity|]. split; [reflexivity|].
  split; [simpl; lia|]. split; [reflexivity|]. split; [reflexivity|].
  split; [reflexivity|]. vm_compute. reflexivity.
Qed.

(** C2, as stated, fails three times: an exception of the request
    materializer leaves [predict] as an exception, an exception
    without message raised in the decoder gives an empty
    [failedReason], and a [KeyboardInterrupt] raised in the decoder
    passes [except Exception] and leaves [predict]. *)
Lemma predict_propagates_materializer_fault :
  @predict _ _ _ _ _ (world materialize_raises load_all decode_plus2)
     "BiLSTM" "db" None "SELECT 1" "req" globals_ready
  = (Raises (Exn "OSError" "No space left on device"), globals_ready)
  /\ (exists r g',
        @predict _ _ _ _ _ (world materialize_ok load_all decode_asserts)
           "BiLSTM" "db" None "SELECT 1" "req" globals_ready
        = (Returns r, g')
        /\ success r = false
        /\ failedReason r = EmptyString)
  /\ (exists g',
        @predict _ _ _ _ _ (world materialize_ok load_all decode_interrupted)
           "BiLSTM" "db" None "SELECT 1" "req" globals_ready
        = (Raises (BaseExn "KeyboardInterrupt" EmptyString), g')).
Proof.
  split; [vm_compute; reflexivity|]. split.
  - eexists _, _. split; [vm_compute; reflexivity|]. split; reflexivity.
  - eexists. vm_compute. reflexivity.
Qed.

Lemma predict_catches_pipeline_faults_witness :
  exists r g',
    @predict _ _ _ _ _ w_ok "BiLSTM" "db" None "SELECT 1" "req"
       globals_no_datasets = (Returns r, g')
    /\ success r = false
    /\ failedReason r = "'NoneType' object has no attribute 'vocab'".
Proof.
  destruct (predict_catches_pipeline_faults (W := w_ok)
              "BiLSTM" "db" None "SELECT 1" "req" globals_no_datasets
              "input/req@BiLSTM.json" eq_refl eq_refl)
    as (r & g' & Hpredict & Hcatch).
  - intros e g1 H. vm_compute in H. by simplify_eq.
  - exists r, g'. split; [exact Hpredict|].
    edestruct Hcatch as (Hsuccess & Hreason & _).
    + apply py_in_true. reflexivity.
    + discriminate.
    + vm_compute. reflexivity.
    + split; [exact Hsuccess|exact Hreason].
Defined.

(** C3 on the small world: the batch of one example ends with one row
    of 500 positions. *)
Lemma decode_batch_runs_500_transitions_witness :
  exists rows,
    @decode_batch _ _ _ _ _ w_ok tt vocab0 encoded0 = Returns rows
    /\ length rows = 1%nat
    /\ Forall (fun row => length row = 500%nat) rows.
Proof.
  destruct (decode_batch_runs_500_transitions (W := w_ok) tt encoded0 vocab0)
    as [Hrows Hreturns].
  assert (Hrun : @decode_batch _ _ _ _ _ w_ok tt vocab0 encoded0
                 = Returns [2 :: repeat 1 499]) by (vm_compute; reflexivity).
  destruct (Hrows _ Hrun) as (inputs & trace & _ & _ & _ & _ & Hall & _).
  eexists. split; [exact Hrun|]. split; [reflexivity|exact Hall].
Defined.

(** C4, as stated, fails: after the first iteration of
    [setup_checkpoints], and after a run of it that stops at a
    checkpoint missing on disk, [is_ready] is true with loads pending. *)
Lemma is_ready_while_loads_pending :
  (exists g,
     @load_checkpoint _ _ _ _ _ w_ok "BiLSTM" globals_datasets = (Returns tt, g)
     /\ is_ready g = true
     /\ checkpoint_dict g !! "Relative-Transformer" = None
     /\ checkpoint_dict g !! "Transformer" = None
     /\ checkpoint_dict g !! "TreeLSTM" = None)
  /\ (exists e g,
        @setup_checkpoints _ _ _ _ _ w_ok globals_datasets = (Raises e, g)
        /\ is_ready g = true
        /\ checkpoint_dict g !! "Transformer" = None
        /\ checkpoint_dict g !! "TreeLSTM" = None).
Proof.
  split.
  - eexists. split; [vm_compute; reflexivity|].
    repeat split; vm_compute; reflexivity.
  - eexists _, _. split; [vm_compute; reflexivity|].
    repeat split; vm_compute; reflexivity.
Qed.

Lemma build_dataset_shares_vocab_witness :
  exists train_set,
    train_tree_dataset globals_datasets = Some train_set
    /\ @build_dataset _ _ _ _ _ w_ok globals_datasets "TreeLSTM" "input.json"
       = Returns (Some (dataset_of vocab1))
    /\ py_is vocab1 (ds_vocab train_set).
Proof.
  destruct (build_dataset_shares_vocab (W := w_ok) globals_datasets
              "TreeLSTM" "input.json" (dataset_of vocab1))
    as (train_set & _ & Htrain & His & _).
  - apply new_dataset_binds.
  - apply new_dataset_binds.
  - apply py_in_true. reflexivity.
  - reflexivity.
  - exists train_set. split; [exact Htrain|]. split; [reflexivity|exact His].
Defined.

Lemma predict_unsupported_tag_witness :
  exists r,
    @predict _ _ _ _ _ w_ok "LSTM2" "db" None "SELECT 1" "req" globals_ready
    = (Returns r, globals_ready)
    /\ success r = false
    /\ contains (failedReason r) "LSTM2"
    /\ contains (failedReason r) SUPPORTED_MODELS_repr
    /\ (forall tag, tag ∈ SUPPORTED_MODELS -> contains (failedReason r) tag).
Proof.
  apply (predict_unsupported_tag (W := w_ok)).
  - apply py_in_false. reflexivity.
  - reflexivity.
Defined.

Lemma predict_hasScore_witness :
  exists r g',
    @predict _ _ _ _ _ w_ok "BiLSTM" "db" (Some "show the names") "SELECT 1"
       "req" globals_ready = (Returns r, g')
    /\ hasScore r = true.
Proof.
  eexists _, _. split; [vm_compute; reflexivity|].
  eapply (predict_hasScore (W := w_ok) "BiLSTM" "db" (Some "show the names")
            "SELECT 1" "req" globals_ready).
  - vm_compute. reflexivity.
  - split; discriminate.
Defined.

Lemma predict_keeps_request_witness :
  exists r g',
    @predict _ _ _ _ _ w_ok "TreeLSTM" "db" None "SELECT 1" "req"
       globals_ready = (Returns r, g')
    /\ modelName r = "TreeLSTM" /\ original r = "SELECT 1".
Proof.
  eexists _, _. split; [vm_compute; reflexivity|].
  eapply (predict_keeps_request (W := w_ok) "TreeLSTM" "db" None
            "SELECT 1" "req" globals_ready).
  vm_compute. reflexivity.
Defined.


End SmallWorld.

(** ** Start-up: what the two set-up functions leave behind *)

Section StartUp.
Context {Float Tensor Hidden PyObj Net : Type}.
Context {W : @World Float Tensor Hidden PyObj Net}.
Implicit Types (g : @Globals Float PyObj) (model : string).

Lemma set_checkpoint_frame model (ck : @Checkpoint Float PyObj) g :
  train_seq_dataset (set_checkpoint model ck g) = train_seq_dataset g
  /\ train_tree_dataset (set_checkpoint model ck g) = train_tree_dataset g.
Proof. done. Qed.

(** The state a run over a list of tags is in when it ends, normally
    or not: a prefix of the tags is registered, each with the
    checkpoint loaded from its path, and nothing else has changed. *)
Lemma for_each_load_progress (tags : list string) g o g' :
  for_each tags load_checkpoint g = (o, g') ->
  exists loaded pending,
    tags = loaded ++ pending
    /\ (forall model, model ∈ loaded ->
          exists ck, torch_load (get_checkpoint_path model) = Returns ck
                     /\ checkpoint_dict g' !! model = Some ck)
    /\ (forall model, model ∉ loaded ->
          checkpoint_dict g' !! model = checkpoint_dict g !! model)
    /\ train_seq_dataset g' = train_seq_dataset g
    /\ train_tree_dataset g' = train_tree_dataset g
    /\ (o = Returns tt /\ pending = []
        \/ exists e, o = Raises e
             /\ ((exists msg, logger_info msg = Raises e)
                 \/ exists tag rest,
                      pending = tag :: rest
                      /\ torch_load (get_checkpoint_path tag) = Raises e)).
Proof.
  revert g. induction tags as [|t tags IH]; intros g Hrun.
  - simpl in Hrun. unfold ret in Hrun. simplify_eq.
    exists [], []. repeat split; try done.
    + intros model Hin. by apply elem_of_nil in Hin.
    + by left.
  - simpl in Hrun. unfold bind in Hrun.
    destruct (load_checkpoint t g) as [o1 g1] eqn:Hstep.
    apply load_checkpoint_inv in Hstep
      as [(-> & e & -> & Hcause)|(ck & Hload & -> & Hend)].
    + simplify_eq. exists [], (t :: tags). repeat split; try done.
      * intros model Hin. by apply elem_of_nil in Hin.
      * right. exists e. split; [done|].
        destruct Hcause as [?|?]; [by left|right; by exists t, tags].
    + destruct Hend as [->|(e & msg & -> & Hlog)].
      * apply IH in Hrun
          as (loaded & pending & -> & Hreg & Hother & Hseq & Htree & Hend).
        exists (t :: loaded), pending. repeat split; try done.
        -- intros model Hin.
           destruct (decide (model ∈ loaded)) as [Hl|Hnl]; [by apply Hreg|].
           apply elem_of_cons in Hin as [->|?]; [|done].
           exists ck. split; [done|].
           rewrite (Hother _ Hnl). simpl. by rewrite lookup_insert_eq.
        -- intros model Hnot. apply not_elem_of_cons in Hnot as [Hne Hnot].
           rewrite (Hother _ Hnot). simpl. by rewrite lookup_insert_ne.
      * simplify_eq. exists [t], tags. repeat split; try done.
        -- intros model Hin. apply list_elem_of_singleton in Hin as ->.
           exists ck. split; [done|]. simpl. by rewrite lookup_insert_eq.
        -- intros model Hnot. apply not_elem_of_cons in Hnot as [Hne _].
           simpl. by rewrite lookup_insert_ne.
        -- right. exists e. split; [done|]. left. by exists msg.
Qed.

Lemma for_each_load_total (tags : list string) g :
  (forall msg, logger_info msg = Returns tt) ->
  (forall model, model ∈ tags ->
     exists ck, torch_load (get_checkpoint_path model) = Returns ck) ->
  exists g', for_each tags load_checkpoint g = (Returns tt, g').
Proof.
  intros Hlog. revert g. induction tags as [|t tags IH]; intros g Hall.
  - by exists g.
  - destruct (Hall t) as [ck Hload]; [by left|].
    destruct (IH (set_checkpoint t ck g)) as [g' Hrun].
    { intros model Hin. apply Hall. by right. }
    exists g'. simpl. unfold bind.
    by rewrite (load_checkpoint_total _ _ _ Hlog Hload).
Qed.

Lemma SUPPORTED_MODELS_NoDup : NoDup SUPPORTED_MODELS.
Proof. apply (bool_decide_unpack _). by vm_compute. Qed.

(** X1: when every logger call returns and [torch.load] returns for
    the path of every supported tag, [setup_checkpoints] returns, the
    registry maps every supported tag to the checkpoint loaded from
    that tag's path, entries under other keys stay, and the training
    datasets are not touched. *)
Theorem setup_checkpoints_registers_all g :
  (forall msg, logger_info msg = Returns tt) ->
  (forall model, model ∈ SUPPORTED_MODELS ->
     exists ck, torch_load (get_checkpoint_path model) = Returns ck) ->
  exists g',
    setup_checkpoints g = (Returns tt, g')
    /\ (forall model, model ∈ SUPPORTED_MODELS ->
          exists ck, torch_load (get_checkpoint_path model) = Returns ck
                     /\ checkpoint_dict g' !! model = Some ck)
    /\ (forall model, model ∉ SUPPORTED_MODELS ->
          checkpoint_dict g' !! model = checkpoint_dict g !! model)
    /\ train_seq_dataset g' = train_seq_dataset g
    /\ train_tree_dataset g' = train_tree_dataset g.
Proof.
  intros Hlog Hall. destruct (for_each_load_total _ g Hlog Hall) as [g' Hrun].
  exists g'. split.
  { unfold setup_checkpoints. unfold bind at 1. rewrite Hrun.
    unfold call. by rewrite Hlog. }
  destruct (for_each_load_progress _ _ _ _ Hrun)
    as (loaded & pending & Hsplit & Hreg & Hother & Hseq & Htree & Hend).
  destruct Hend as [[_ ->]|(e & ? & _)]; [|done].
  rewrite app_nil_r in Hsplit. subst loaded. by repeat split.
Qed.

(** X2: when [setup_checkpoints] raises, a prefix of the supported
    tags, in list order, is registered, each tag with the checkpoint
    loaded from its path; the remaining tags keep whatever entry they
    had and the training datasets are not touched.  The exception is
    the one a logger call raised, or the one [torch.load] raised for
    the first tag that is not registered. *)
Theorem setup_checkpoints_stops_at_first_failure g e g' :
  setup_checkpoints g = (Raises e, g') ->
  exists loaded pending,
    SUPPORTED_MODELS = loaded ++ pending
    /\ (forall model, model ∈ loaded ->
          exists ck, torch_load (get_checkpoint_path model) = Returns ck
                     /\ checkpoint_dict g' !! model = Some ck)
    /\ (forall model, model ∈ pending ->
          checkpoint_dict g' !! model = checkpoint_dict g !! model)
    /\ train_seq_dataset g' = train_seq_dataset g
    /\ train_tree_dataset g' = train_tree_dataset g
    /\ ((exists msg, logger_info msg = Raises e)
        \/ exists tag rest,
             pending = tag :: rest
             /\ torch_load (get_checkpoint_path tag) = Raises e).
Proof.
  intros Hrun.
  assert (Hloop : exists o,
            for_each SUPPORTED_MODELS load_checkpoint g = (o, g')
            /\ (o = Raises e
                \/ o = Returns tt /\ exists msg, logger_info msg = Raises e)).
  { apply setup_checkpoints_inv in Hrun
      as [(e' & He & Hloop)|(Hloop & [?|(e' & msg & He & Hlog)])];
      simplify_eq; eauto 6. }
  destruct Hloop as (o & Hloop & Ho).
  destruct (for_each_load_progress _ _ _ _ Hloop)
    as (loaded & pending & Hsplit & Hreg & Hother & Hseq & Htree & Hend).
  exists loaded, pending. repeat split; try done.
  - intros model Hin. apply Hother. intros Hl.
    pose proof SUPPORTED_MODELS_NoDup as Hnd. rewrite Hsplit in Hnd.
    apply NoDup_app in Hnd as (_ & Hdisj & _). by apply (Hdisj model).
  - destruct Ho as [->|[-> ?]]; [|by left].
    destruct Hend as [[? _]|(e' & He & Hcause)]; by simplify_eq.
Qed.

Ltac run_set_up H :=
  unfold setup_models in H;
  cbv beta iota zeta delta [bind call read write ret] in H;
  simpl in H;
  repeat (match type of H with
          | context [logger_info ?msg] =>
              let E := fresh "Hlog" in
              destruct (logger_info msg) as [[]|?] eqn:E; simpl in H
          | context [SeqDataset ?a ?b ?c] =>
              let E := fresh "Hseq" in
              destruct (SeqDataset a b c) eqn:E; simpl in H
          | context [TreeDataset ?a ?b ?c] =>
              let E := fresh "Htree" in
              destruct (TreeDataset a b c) eqn:E; simpl in H
          end);
  simplify_eq; simpl.

Lemma setup_models_present g g' :
  setup_models g = (Returns tt, g') ->
  checkpoint_dict g' = checkpoint_dict g
  /\ is_Some (train_seq_dataset g')
  /\ is_Some (train_tree_dataset g').
Proof.
  intros H. destruct g as [dict [seq|] [tree|]]; run_set_up H;
    repeat split; try done; by eexists.
Qed.

(** X3: a run of [setup_models] that returns leaves both training
    datasets present, keeps a dataset that was already cached as the
    same object, builds a missing one from the training files without
    a given vocabulary, does not touch the registry, and is a no-op
    when run again. *)
Theorem setup_models_memoizes g g' :
  setup_models g = (Returns tt, g') ->
  checkpoint_dict g' = checkpoint_dict g
  /\ is_Some (train_seq_dataset g')
  /\ is_Some (train_tree_dataset g')
  /\ (forall d, train_seq_dataset g = Some d -> train_seq_dataset g' = Some d)
  /\ (forall d, train_tree_dataset g = Some d -> train_tree_dataset g' = Some d)
  /\ (train_seq_dataset g = None ->
        exists d, SeqDataset TRAIN_DATA_FILES TRAIN_TABLE_FILE_PATH None = Returns d
                  /\ train_seq_dataset g' = Some d)
  /\ (train_tree_dataset g = None ->
        exists d, TreeDataset TRAIN_DATA_FILES TRAIN_TABLE_FILE_PATH None = Returns d
                  /\ train_tree_dataset g' = Some d)
  /\ setup_models g' = (Returns tt, g').
Proof.
  intros H.
  assert (Hfinal : logger_info "!!setup_models finished!!" = Returns tt).
  { unfold setup_models in H.
    cbv beta iota zeta delta [bind call read write ret] in H.
    destruct (logger_info "!!setup_models finished!!") as [[]|e]; [done|].
    exfalso. repeat case_match; simplify_eq. }
  assert (Hagain : forall dict (seq tree : @Dataset PyObj),
            setup_models {| checkpoint_dict := dict;
                            train_seq_dataset := Some seq;
                            train_tree_dataset := Some tree |}
            = (Returns tt, {| checkpoint_dict := dict;
                              train_seq_dataset := Some seq;
                              train_tree_dataset := Some tree |})).
  { intros dict seq tree. unfold setup_models.
    cbv beta iota zeta delta [bind call read write ret]. simpl.
    by rewrite Hfinal. }
  destruct g as [dict [seq|] [tree|]]; run_set_up H;
    repeat split; try done; try (by eexists); try (intros; by simplify_eq);
    try (intros _; by eexists); apply Hagain.
Qed.

(** X4: when [setup_models] raises, the exception is the one a logger
    call or a dataset constructor raised; the registry is unchanged
    and a dataset that was cached stays cached.  If the sequence
    constructor raised, the globals are as before; if the tree
    constructor raised, the sequence dataset, cached or just built, is
    cached and the tree dataset is still missing. *)
Theorem setup_models_failure g e g' :
  setup_models g = (Raises e, g') ->
  checkpoint_dict g' = checkpoint_dict g
  /\ (forall d, train_seq_dataset g = Some d -> train_seq_dataset g' = Some d)
  /\ (forall d, train_tree_dataset g = Some d -> train_tree_dataset g' = Some d)
  /\ ((exists msg, logger_info msg = Raises e)
      \/ (train_seq_dataset g = None
          /\ SeqDataset TRAIN_DATA_FILES TRAIN_TABLE_FILE_PATH None = Raises e
          /\ g' = g)
      \/ (train_tree_dataset g = None
          /\ TreeDataset TRAIN_DATA_FILES TRAIN_TABLE_FILE_PATH None = Raises e
          /\ is_Some (train_seq_dataset g')
          /\ train_tree_dataset g' = None)).
Proof.
  intros H. destruct g as [dict [seq|] [tree|]]; run_set_up H;
    (split; [done|]); (split; [intros; by simplify_eq|]);
    (split; [intros; by simplify_eq|]);
    first [ left; by eexists
          | right; left; by repeat split
          | right; right; repeat split; try done; by eexists ].
Qed.

Lemma supported_split model :
  model ∈ SUPPORTED_MODELS <-> model ∈ SEQ_MODELS \/ model = "TreeLSTM".
Proof.
  unfold SUPPORTED_MODELS, SEQ_MODELS. rewrite !elem_of_cons, !elem_of_nil.
  tauto.
Qed.

(** X5: once [setup_checkpoints] and [setup_models] have both returned,
    in either order, [is_ready] is true and every supported tag has
    its checkpoint in the registry and a training dataset of its
    family. *)
Theorem start_up_makes_ready g g1 g2 :
  (setup_checkpoints g = (Returns tt, g1) /\ setup_models g1 = (Returns tt, g2))
  \/ (setup_models g = (Returns tt, g1) /\ setup_checkpoints g1 = (Returns tt, g2)) ->
  is_ready g2 = true
  /\ forall model, model ∈ SUPPORTED_MODELS ->
       is_Some (checkpoint_dict g2 !! model)
       /\ is_Some (get_train_dataset g2 model).
Proof.
  intros Hrun.
  assert (Hall : (forall model, model ∈ SUPPORTED_MODELS ->
                    is_Some (checkpoint_dict g2 !! model))
                 /\ is_Some (train_seq_dataset g2)
                 /\ is_Some (train_tree_dataset g2)).
  { destruct Hrun as [[Hck Hds]|[Hds Hck]].
    - apply setup_models_present in Hds as (Hdict & Hseq & Htree).
      rewrite Hdict. repeat split; try done.
      by apply setup_checkpoints_loads_all with g.
    - apply setup_models_present in Hds as (_ & Hseq & Htree).
      pose proof (setup_checkpoints_loads_all _ _ Hck) as Hdict.
      apply setup_checkpoints_inv in Hck as [(e & ? & _)|[Hloop _]]; [done|].
      destruct (for_each_load_progress _ _ _ _ Hloop)
        as (_ & _ & _ & _ & _ & -> & -> & _).
      by repeat split. }
  destruct Hall as (Hdict & Hseq & Htree). split.
  - unfold is_ready.
    rewrite !andb_true_iff, negb_true_iff, Nat.eqb_neq, !bool_decide_eq_true.
    repeat split; try done. rewrite map_size_empty_iff. intros Hempty.
    destruct (Hdict "BiLSTM") as [ck Hck]; [apply elem_of_cons; by left|].
    by rewrite Hempty, lookup_empty in Hck.
  - intros model Hin. split; [by apply Hdict|].
    apply supported_split in Hin as [Hs| ->].
    + by rewrite (get_train_dataset_seq _ _ Hs).
    + by rewrite get_train_dataset_tree.
Qed.


End StartUp.

(** ** Requests: outcomes of [build_dataset] and [predict] *)

Section Requests.
Context {Float Tensor Hidden PyObj Net : Type}.
Context {W : @World Float Tensor Hidden PyObj Net}.
Implicit Types (g : @Globals Float PyObj) (model : string).
Implicit Types (res r : @EvaluationResult Float).

Ltac run_monad :=
  cbv beta iota zeta delta [bind call read write ret try_except] in *.

Lemma build_dataset_None_iff g model path :
  build_dataset g model path = Returns None <-> model ∉ SUPPORTED_MODELS.
Proof.
  destruct (decide (model ∈ SUPPORTED_MODELS)) as [Hin|Hnot].
  - split; [|done]. intros H. exfalso. unfold build_dataset in H.
    apply supported_split in Hin as [Hs| ->].
    + rewrite (proj2 (py_in_true _ _) Hs) in H.
      destruct (attr_vocab _) as [v|e]; [|discriminate]. simpl in H.
      destruct (SeqDataset _ _ _) as [d|e]; discriminate.
    + simpl in H.
      destruct (attr_vocab _) as [v|e]; [|discriminate]. simpl in H.
      destruct (TreeDataset _ _ _) as [d|e]; discriminate.
  - split; [done|]. intros _. unfold build_dataset.
    assert (Hseq : model ∉ SEQ_MODELS).
    { intros H. apply Hnot, supported_split. by left. }
    assert (Htree : model <> "TreeLSTM").
    { intros H. apply Hnot, supported_split. by right. }
    rewrite (proj2 (py_in_false _ _) Hseq).
    by rewrite (proj2 (String.eqb_neq _ _) Htree).
Qed.

(** X7: [build_dataset] returns [None] exactly for the tags that are
    not supported; for a supported tag whose training dataset has not
    been set up it does not return [None] but raises the
    [AttributeError] of [train_set.vocab]. *)
Theorem build_dataset_outcomes g model path :
  (build_dataset g model path = Returns None <-> model ∉ SUPPORTED_MODELS)
  /\ (model ∈ SUPPORTED_MODELS ->
      get_train_dataset g model = None ->
      build_dataset g model path =
      Raises (Exn "AttributeError" "'NoneType' object has no attribute 'vocab'")).
Proof.
  split; [apply build_dataset_None_iff|].
  - intros Hin Hnone. unfold build_dataset.
    apply supported_split in Hin as [Hs| ->].
    + by rewrite (proj2 (py_in_true _ _) Hs), Hnone.
    + simpl. by rewrite Hnone.
Qed.

(** What the [try] block does to the globals, however it ends. *)
Lemma run_sql2text_try_globals model path res g o g' :
  run_sql2text_try model path res g = (o, g') ->
  match checkpoint_dict g !! model with
  | None => g' = g
  | Some ck =>
      g' = set_checkpoint model
             {| ck_args := set_eval_batch_size 1 (set_data "spider" (ck_args ck));
                ck_model := ck_model ck |} g
  end.
Proof.
  unfold run_sql2text_try. run_monad.
  destruct (checkpoint_dict g !! model) as [ck|]; [|by intros; simplify_eq].
  repeat case_match; intros; by simplify_eq.
Qed.

Lemma run_sql2text_globals model path res g o g' :
  run_sql2text model path res g = (o, g') ->
  match checkpoint_dict g !! model with
  | None => g' = g
  | Some ck =>
      g' = set_checkpoint model
             {| ck_args := set_eval_batch_size 1 (set_data "spider" (ck_args ck));
                ck_model := ck_model ck |} g
  end.
Proof.
  rewrite run_sql2text_cases.
  destruct (run_sql2text_try model path res g) as [[r|e] g1] eqn:Htry;
    apply run_sql2text_try_globals in Htry;
    [|destruct (is_Exception e)]; intros; by simplify_eq.
Qed.

(** X8: however a call of [predict] ends, it leaves both training
    datasets and every registry entry of another tag as they were, and
    adds or removes no key; the entry of the requested tag is either
    untouched or the same checkpoint with [data] set to "spider" and
    [eval_batch_size] set to 1 in its hyperparameters. *)
Theorem predict_globals_frame
    model db_id (gold : option string) sql identifier g o g' :
  predict model db_id gold sql identifier g = (o, g') ->
  train_seq_dataset g' = train_seq_dataset g
  /\ train_tree_dataset g' = train_tree_dataset g
  /\ dom (checkpoint_dict g') = dom (checkpoint_dict g)
  /\ (forall m, m <> model ->
        checkpoint_dict g' !! m = checkpoint_dict g !! m)
  /\ (checkpoint_dict g' !! model = checkpoint_dict g !! model
      \/ exists ck,
           checkpoint_dict g !! model = Some ck
           /\ checkpoint_dict g' !! model =
              Some {| ck_args := set_eval_batch_size 1
                                   (set_data "spider" (ck_args ck));
                      ck_model := ck_model ck |}).
Proof.
  intros H.
  assert (Hg : g' = g \/
               exists ck, checkpoint_dict g !! model = Some ck /\
                 g' = set_checkpoint model
                        {| ck_args := set_eval_batch_size 1
                                        (set_data "spider" (ck_args ck));
                           ck_model := ck_model ck |} g).
  { unfold predict in H.
    destruct (negb (py_in model SUPPORTED_MODELS)).
    { unfold ret in H. left. by simplify_eq. }
    unfold bind, call in H.
    destruct (build_input_sql_json _ _ _ _) as [path|e];
      [|left; by simplify_eq].
    destruct (String.eqb path EmptyString).
    { unfold ret in H. left. by simplify_eq. }
    apply run_sql2text_globals in H.
    destruct (checkpoint_dict g !! model) as [ck|]; [right; eauto|by left]. }
  destruct Hg as [->|(ck & Hck & ->)]; [by repeat split; auto|].
  simpl. repeat split; try done.
  - rewrite dom_insert_L. apply elem_of_dom_2 in Hck.
    by apply subseteq_union_1_L, singleton_subseteq_l.
  - intros m Hne. by rewrite lookup_insert_ne.
  - right. exists ck. by rewrite lookup_insert_eq.
Qed.

(** X9: a result of [predict] with [success] true means every stage
    returned: the tag is supported, the materializer gave a non-empty
    path, the tag's checkpoint was in the registry, the dataset and the
    network were built, the weights were loaded and [evaluate]
    returned; [result] and [score] are what [evaluate] returned and
    [failedReason] was never written. *)
Theorem predict_success_inv
    model db_id (gold : option string) sql identifier g r g' :
  success EvaluationResult_new = false ->
  predict model db_id gold sql identifier g = (Returns r, g') ->
  success r = true ->
  exists path checkpoint test_dataset net_spec net prediction sc,
    model ∈ SUPPORTED_MODELS
    /\ build_input_sql_json db_id gold sql (identifier +:+ "@" +:+ model)
       = Returns path
    /\ path <> EmptyString
    /\ checkpoint_dict g !! model = Some checkpoint
    /\ build_dataset g model path = Returns (Some test_dataset)
    /\ build_model
         (Some (set_eval_batch_size 1 (set_data "spider" (ck_args checkpoint))))
         (Some (ds_vocab test_dataset)) = Some net_spec
    /\ to_device net_spec = Returns tt
    /\ load_state_dict net_spec (ck_model checkpoint) = Returns net
    /\ evaluate net test_dataset (ds_vocab test_dataset)
         (set_eval_batch_size 1 (set_data "spider" (ck_args checkpoint)))
         (args_model (ck_args checkpoint)) = Returns (prediction, sc)
    /\ result r = prediction
    /\ score r = sc
    /\ failedReason r = failedReason EvaluationResult_new.
Proof.
  intros Hnew H Hsuccess. unfold predict in H.
  destruct (py_in model SUPPORTED_MODELS) eqn:Hin; simpl in H;
    [|unfold ret in H; simplify_eq; simpl in Hsuccess; congruence].
  apply py_in_true in Hin. unfold bind, call in H.
  destruct (build_input_sql_json _ _ _ _) as [path|e] eqn:Hmat; [|discriminate].
  destruct (String.eqb path EmptyString) eqn:Hpath;
    [unfold ret in H; simplify_eq; simpl in Hsuccess; congruence|].
  apply String.eqb_neq in Hpath.
  rewrite run_sql2text_cases in H.
  destruct (run_sql2text_try model path (new_result model gold sql) g)
    as [[r1|e] g1] eqn:Htry;
    [|destruct (is_Exception e); simplify_eq; simpl in Hsuccess; congruence].
  injection H as -> ->. unfold run_sql2text_try in Htry. run_monad.
  destruct (checkpoint_dict g !! model) as [checkpoint|] eqn:Hck;
    [|simplify_eq; simpl in Hsuccess; congruence].
  destruct (build_dataset g model path) as [[test_dataset|]|e] eqn:Hds;
    try (simplify_eq; simpl in Hsuccess; congruence).
  destruct (build_model _ _) as [net_spec|] eqn:Hmodel;
    [|simplify_eq; simpl in Hsuccess; congruence].
  destruct (to_device net_spec) as [[]|e] eqn:Hdev; [|discriminate].
  destruct (load_state_dict _ _) as [net|e] eqn:Hload; [|discriminate].
  destruct (evaluate _ _ _ _ _) as [[prediction sc]|e] eqn:Heval;
    [|discriminate].
  simplify_eq.
  exists path, checkpoint, test_dataset, net_spec, net, prediction, sc.
  repeat split; done.
Qed.


End Requests.

(** ** [evaluate]: what reaches the metric, and the loop's store *)

Section Evaluate.
Context {Float Tensor Hidden PyObj Net : Type}.
Context {W : @World Float Tensor Hidden PyObj Net}.
Variables (model : Net) (vocab : Vocab).

Lemma encode_batch_supported (args : @Args Float) (model_name : string)
    (batch_data : PyObj) :
  model_name ∈ SUPPORTED_MODELS ->
  encode_batch model vocab args model_name batch_data <> Returns None.
Proof.
  intros Hin H. unfold encode_batch in H.
  apply supported_split in Hin as [Hs| ->].
  - rewrite (proj2 (py_in_true _ _) Hs) in H.
    destruct (get_seq_batch_data _ _ _ _ _) as [batch|e]; [|discriminate].
    simpl in H.
    destruct (if String.eqb model_name "Relative-Transformer"
              then encode model [sb_nodes batch; sb_rela_dist batch]
              else encode model [sb_nodes batch]) as [[[nodes hidden] mask]|e];
      discriminate.
  - simpl in H.
    destruct (get_tree_batch_data _) as [batch|e]; [|discriminate].
    simpl in H. destruct (encode _ _) as [[[nodes hidden] mask]|e]; discriminate.
Qed.

(** The rows a run over the batches adds to [all_predictions]. *)
Lemma eval_batches_rows (args : @Args Float) (model_name : string)
    (batches : list PyObj) (acc : list (list Z)) (o : option (list (list Z))) :
  model_name ∈ SUPPORTED_MODELS ->
  eval_batches model vocab args model_name batches acc = Returns o ->
  exists rows,
    o = Some (acc ++ rows)
    /\ Forall (fun row => length row = MAX_DECODE) rows
    /\ Forall (Forall (in_vocab_or_unk vocab)) rows.
Proof.
  intros Hin. revert acc. induction batches as [|batch_data rest IH]; intros acc H.
  - simpl in H. injection H as <-. exists []. by rewrite app_nil_r.
  - simpl in H.
    destruct (encode_batch model vocab args model_name batch_data)
      as [[enc|]|e] eqn:Henc; [| |discriminate].
    2:{ by apply encode_batch_supported in Henc. }
    rewrite bind_Returns in H.
    destruct (decode_batch model vocab enc) as [preds|e] eqn:Hdec; [|discriminate].
    rewrite bind_Returns in H.
    apply IH in H as (rows & -> & Hlen & Hids).
    apply decode_batch_rows in Hdec as [Hlen' Hids'].
    exists (preds ++ rows). rewrite app_assoc.
    split; [done|]. split; by apply Forall_app.
Qed.

(** X11: when [evaluate] returns for a supported model name, its
    answer comes from [get_metric] and never from the early
    [return "", 0] inside the batch loop: the metric was given one row
    of exactly 500 ids per decoded example, every id below the
    vocabulary size or equal to the unknown id, and the answer is the
    first prediction and the first score, or "" and 0 where the metric
    returned none. *)
Theorem evaluate_supported (dataset : @Dataset PyObj) (args : @Args Float)
    (model_name prediction : string) (sc : @pynum Float) :
  model_name ∈ SUPPORTED_MODELS ->
  evaluate model dataset vocab args model_name = Returns (prediction, sc) ->
  exists all_predictions scores result_predictions,
    eval_batches model vocab args model_name
      (DataLoader dataset (args_eval_batch_size args)) []
    = Returns (Some all_predictions)
    /\ get_metric all_predictions (ds_origin_questions dataset) vocab
         (ds_val_map_list dataset) (ds_idx2tok_map_list dataset)
       = Returns (scores, result_predictions)
    /\ Forall (fun row => length row = 500%nat) all_predictions
    /\ Forall (Forall (in_vocab_or_unk vocab)) all_predictions
    /\ prediction = hd EmptyString result_predictions
    /\ sc = hd (PyInt 0) scores.
Proof.
  intros Hin H. unfold evaluate in H.
  rewrite (proj2 (py_in_true _ _) Hin) in H. simpl in H.
  destruct (eval_batches _ _ _ _ _ _) as [o|e] eqn:Hrun; [|discriminate].
  destruct (eval_batches_rows _ _ _ _ _ Hin Hrun) as (rows & -> & Hlen & Hids).
  rewrite bind_Returns in H. simpl in H.
  destruct (get_metric _ _ _ _ _) as [[scores results]|e] eqn:Hmetric;
    [|discriminate].
  rewrite bind_Returns in H. injection H as <- <-.
  by exists rows, scores, results.
Qed.

Variable enc : @Encoded Tensor Hidden.
Local Notation "'step'" := (decode_step model enc vocab).

Lemma masked_assign_below (t : list Z) :
  vocab_unk_idx vocab < vocab_size vocab ->
  Forall (fun x => x < vocab_size vocab)
         (masked_assign (vocab_size vocab) (vocab_unk_idx vocab) t).
Proof.
  intros Hunk. unfold masked_assign. apply Forall_map, Forall_forall.
  intros x _. simpl.
  destruct (x >=? vocab_size vocab) eqn:E; [done|].
  rewrite Z.geb_leb in E. by apply Z.leb_gt in E.
Qed.

(** X12: when the unknown id is below the vocabulary size, the tensor
    fed to the next [decode] call after any positive number of
    iterations holds only ids below the vocabulary size, whatever ids
    the decoder selected. *)
Theorem decode_loop_feeds_in_range (n : nat) (st st' : DecodeState) :
  vocab_unk_idx vocab < vocab_size vocab ->
  for_range (S n) step st = Returns st' ->
  Forall (fun x => x < vocab_size vocab) (deref (st_store st') (st_inputs st')).
Proof.
  intros Hunk. revert st. induction n as [|n IH]; intros st H.
  - simpl in H. destruct (step st) as [st1|e] eqn:Hstep; [|discriminate].
    rewrite bind_Returns in H. injection H as <-.
    apply decode_step_inv in Hstep as (cur_out & hidden & _ & ->). simpl.
    rewrite deref_fresh. by apply masked_assign_below.
  - change (for_range (S (S n)) step st)
      with (step st ≫= for_range (S n) step) in H.
    destruct (step st) as [st1|e]; [|discriminate].
    rewrite bind_Returns in H. by apply (IH st1).
Qed.

(** X13: a run of iterations only adds to the store: it allocates one
    tensor per iteration, records the references to them in order, and
    leaves every tensor that existed before, the question tensor
    among them, as it was. *)
Theorem decode_loop_appends_only (n : nat) (st st' : DecodeState) :
  for_range n step st = Returns st' ->
  length (st_store st') = (length (st_store st) + n)%nat
  /\ st_preds st' = st_preds st ++ seq (length (st_store st)) n
  /\ forall ref, (ref < length (st_store st))%nat ->
       deref (st_store st') ref = deref (st_store st) ref.
Proof.
  intros H. apply for_range_decode_step in H as (ts & Hlen & Hstore & Hpreds & _).
  rewrite Hstore, length_app, Hlen. repeat split; [done|].
  intros ref Href. by apply deref_app_l.
Qed.

End Evaluate.

(** ** The further properties on the small world *)

Section SmallWorldExtras.
Import Small.

Lemma setup_checkpoints_registers_all_witness :
  exists g',
    @setup_checkpoints _ _ _ _ _ w_all globals_empty = (Returns tt, g')
    /\ is_Some (checkpoint_dict g' !! "TreeLSTM")
    /\ train_seq_dataset g' = None.
Proof.
  destruct (setup_checkpoints_registers_all (W := w_all) globals_empty)
    as (g' & Hrun & Hall & _ & Hseq & _).
  - reflexivity.
  - intros model. unfold SUPPORTED_MODELS. rewrite !elem_of_cons, elem_of_nil.
    intros [->|[->|[->|[->|[]]]]]; eexists; vm_compute; reflexivity.
  - exists g'. split; [exact Hrun|]. split; [|exact Hseq].
    destruct (Hall "TreeLSTM") as (ck & _ & Hck).
    + apply py_in_true. reflexivity.
    + rewrite Hck. by eexists.
Defined.

Lemma setup_checkpoints_stops_at_first_failure_witness :
  exists loaded pending,
    SUPPORTED_MODELS = loaded ++ pending
    /\ (forall model, model ∈ loaded ->
          is_Some (checkpoint_dict
                     (@setup_checkpoints _ _ _ _ _ w_ok globals_datasets).2
                   !! model))
    /\ (forall model, model ∈ pending ->
          checkpoint_dict (@setup_checkpoints _ _ _ _ _ w_ok globals_datasets).2
            !! model = None).
Proof.
  assert (Hrun : @setup_checkpoints _ _ _ _ _ w_ok globals_datasets
                 = (Raises (Exn "FileNotFoundError" "No such file or directory"),
                    (@setup_checkpoints _ _ _ _ _ w_ok globals_datasets).2))
    by (vm_compute; reflexivity).
  destruct (setup_checkpoints_stops_at_first_failure (W := w_ok) _ _ _ Hrun)
    as (loaded & pending & Hsplit & Hreg & Hother & _).
  exists loaded, pending. split; [exact Hsplit|]. split.
  - intros model Hin. destruct (Hreg model Hin) as (ck & _ & ->). by eexists.
  - intros model Hin. rewrite (Hother model Hin). apply lookup_empty.
Defined.

(** Outside an application context both start-up functions raise at
    their first logger call and leave the globals as they were. *)
Example start_up_outside_application_context :
  @setup_checkpoints _ _ _ _ _ w_no_app_context globals_empty
  = (Raises (Exn "RuntimeError" "Working outside of application context."),
     globals_empty)
  /\ @setup_models _ _ _ _ _ w_no_app_context globals_empty
     = (Raises (Exn "RuntimeError" "Working outside of application context."),
        globals_empty).
Proof. split; vm_compute; reflexivity. Qed.

Lemma setup_models_memoizes_witness :
  exists g',
    @setup_models _ _ _ _ _ w_ok globals_empty = (Returns tt, g')
    /\ is_Some (train_seq_dataset g')
    /\ is_Some (train_tree_dataset g')
    /\ @setup_models _ _ _ _ _ w_ok g' = (Returns tt, g').
Proof.
  assert (Hrun : @setup_models _ _ _ _ _ w_ok globals_empty
                 = (Returns tt, (@setup_models _ _ _ _ _ w_ok globals_empty).2))
    by (vm_compute; reflexivity).
  destruct (setup_models_memoizes (W := w_ok) _ _ Hrun)
    as (_ & Hseq & Htree & _ & _ & _ & _ & Hagain).
  eexists. split; [exact Hrun|]. split; [exact Hseq|]. split; [exact Htree|].
  exact Hagain.
Defined.

Lemma setup_models_failure_witness :
  exists e g',
    @setup_models _ _ _ _ _ w_no_tree_corpus globals_empty = (Raises e, g')
    /\ checkpoint_dict g' = checkpoint_dict globals_empty.
Proof.
  assert (Hrun : @setup_models _ _ _ _ _ w_no_tree_corpus globals_empty
                 = (Raises (Exn "FileNotFoundError" "No such file or directory"),
                    (@setup_models _ _ _ _ _ w_no_tree_corpus globals_empty).2))
    by (vm_compute; reflexivity).
  destruct (setup_models_failure (W := w_no_tree_corpus) _ _ _ Hrun) as (Hdict & _).
  eexists _, _. split; [exact Hrun|exact Hdict].
Defined.

Lemma start_up_makes_ready_witness :
  is_ready
    (@setup_models _ _ _ _ _ w_all
       (@setup_checkpoints _ _ _ _ _ w_all globals_empty).2).2 = true.
Proof.
  apply (start_up_makes_ready (W := w_all) globals_empty
           (@setup_checkpoints _ _ _ _ _ w_all globals_empty).2
           (@setup_models _ _ _ _ _ w_all
              (@setup_checkpoints _ _ _ _ _ w_all globals_empty).2).2).
  left. split; vm_compute; reflexivity.
Defined.

Lemma predict_globals_frame_witness :
  exists o g',
    @predict _ _ _ _ _ w_ok "BiLSTM" "db" None "SELECT 1" "req" globals_ready
    = (o, g')
    /\ train_seq_dataset g' = train_seq_dataset globals_ready
    /\ dom (checkpoint_dict g') = dom (checkpoint_dict globals_ready).
Proof.
  assert (Hrun :
    @predict _ _ _ _ _ w_ok "BiLSTM" "db" None "SELECT 1" "req" globals_ready
    = ((@predict _ _ _ _ _ w_ok "BiLSTM" "db" None "SELECT 1" "req"
          globals_ready).1,
       (@predict _ _ _ _ _ w_ok "BiLSTM" "db" None "SELECT 1" "req"
          globals_ready).2))
    by (vm_compute; reflexivity).
  destruct (predict_globals_frame (W := w_ok) _ _ _ _ _ _ _ _ Hrun)
    as (Hseq & _ & Hdom & _).
  eexists _, _. split; [exact Hrun|]. split; [exact Hseq|exact Hdom].
Defined.

Lemma predict_success_inv_witness :
  exists checkpoint,
    checkpoint_dict globals_ready !! "BiLSTM" = Some checkpoint.
Proof.
  edestruct (predict_success_inv (W := w_ok) "BiLSTM" "db" None "SELECT 1"
               "req" globals_ready)
    as (path & checkpoint & test_dataset & net_spec & net & prediction & sc
        & _ & _ & _ & Hck & _).
  - reflexivity.
  - vm_compute. reflexivity.
  - reflexivity.
  - exists checkpoint. exact Hck.
Defined.


Lemma evaluate_supported_witness :
  exists all_predictions,
    @eval_batches _ _ _ _ _ w_ok tt vocab0 (args_of "BiLSTM") "BiLSTM"
      (@DataLoader _ _ _ _ _ w_ok (dataset_of vocab0) 1) []
    = Returns (Some all_predictions)
    /\ Forall (fun row => length row = 500%nat) all_predictions
    /\ Forall (Forall (in_vocab_or_unk vocab0)) all_predictions.
Proof.
  destruct (evaluate_supported (W := w_ok) tt vocab0 (dataset_of vocab0)
              (args_of "BiLSTM") "BiLSTM" "show the names" (PyFloat tt))
    as (all_predictions & scores & results & Hrun & _ & Hlen & Hids & _).
  - apply py_in_true. reflexivity.
  - vm_compute. reflexivity.
  - exists all_predictions. split; [exact Hrun|]. split; [exact Hlen|exact Hids].
Defined.

Lemma decode_loop_feeds_in_range_witness :
  exists st',
    for_range 2 (@decode_step _ _ _ _ _ w_ok tt encoded0 vocab0)
              (decode_init encoded0 [0]) = Returns st'
    /\ Forall (fun x => x < 3) (deref (st_store st') (st_inputs st')).
Proof.
  eexists. split; [vm_compute; reflexivity|].
  apply (decode_loop_feeds_in_range (W := w_ok) tt vocab0 encoded0 1
           (decode_init encoded0 [0])).
  - reflexivity.
  - vm_compute. reflexivity.
Defined.

Lemma decode_loop_appends_only_witness :
  exists st',
    for_range 2 (@decode_step _ _ _ _ _ w_ok tt encoded0 vocab0)
              (decode_init encoded0 [0]) = Returns st'
    /\ length (st_store st') = 3%nat
    /\ deref (st_store st') 0 = [0].
Proof.
  eexists. split; [vm_compute; reflexivity|].
  edestruct (decode_loop_appends_only (W := w_ok) tt vocab0 encoded0 2
               (decode_init encoded0 [0])) as (Hlen & _ & Hold).
  - vm_compute. reflexivity.
  - split; [exact Hlen|]. apply (Hold 0%nat). simpl. lia.
Defined.

End SmallWorldExtras.
